(** * Scoring calculators of the redistricting application

    A shallow embedding of
    [django/publicmapping/redistricting/calculators.py]: the argument
    resolver [CalculatorBase.get_value] and the [compute] methods of
    [Schwartzberg], [Sum], [Percent], [Threshold] and [Range].

    Python objects are a small universal type, numbers are IEEE binary64
    values (Python's [float]) with the faults Python adds on top of the
    IEEE operations, and a method is a function from the instance to the
    instance after the call together with how the call ended (returned,
    or raised). *)

From Stdlib Require Import ZArith Lia.
From Stdlib Require Import Floats.SpecFloat.
From stdpp Require Import gmap strings list fin_maps pretty.

Local Open Scope string_scope.

(** ** Python's [float]: binary64 *)

Module Float.

Definition prec : Z := 53.
Definition emax : Z := 1024.

Definition float64 : Type := spec_float.

(** Conversion of an integer, rounding to nearest even; an integer that is
    too large rounds to an infinity. *)
Definition of_Z (z : Z) : float64 := binary_normalize prec emax z 0 false.

Definition add : float64 -> float64 -> float64 := SFadd prec emax.
Definition mul : float64 -> float64 -> float64 := SFmul prec emax.
Definition div : float64 -> float64 -> float64 := SFdiv prec emax.
Definition sqrt : float64 -> float64 := SFsqrt prec emax.
Definition ltb : float64 -> float64 -> bool := SFltb.
Definition eqb : float64 -> float64 -> bool := SFeqb.

Definition zero : float64 := S754_zero false.
Definition one : float64 := of_Z 1.

(** [math.pi], 0x1.921fb54442d18p+1. *)
Definition pi : float64 := S754_finite false 7074237752028440 (-51).

Definition is_nan (x : float64) : bool :=
  match x with S754_nan => true | _ => false end.

Definition is_inf (x : float64) : bool :=
  match x with S754_infinity _ => true | _ => false end.

Definition is_zero (x : float64) : bool :=
  match x with S754_zero _ => true | _ => false end.

End Float.

Abbreviation float64 := Float.float64.

(** ** Python objects, exceptions, built-ins *)

Inductive pyobj : Type :=
  | PyNone
  | PyBool (b : bool)
  | PyInt (z : Z)
  | PyFloat (f : float64)
  | PyStr (s : string).

Inductive exn : Type :=
  | KeyError (key : string)
  | TypeError
  | ValueError
  | OverflowError
  | ZeroDivisionError.

Inductive outcome (A : Type) : Type :=
  | Ok (a : A)
  | Raise (e : exn).

Arguments Ok {A} a.
Arguments Raise {A} e.

(** [x is None] *)
Definition is_None (x : pyobj) : bool :=
  match x with PyNone => true | _ => false end.

(** The text-to-number parser behind [float(str)] belongs to the Python
    runtime, not to this repository; the calculators are parametric in it.
    [None] stands for the [ValueError] of an unparsable text. *)
Class FloatFromString : Type :=
  float_from_string : string -> option float64.

(** [float(x)]. *)
Definition float `{FloatFromString} (x : pyobj) : outcome float64 :=
  match x with
  | PyNone => Raise TypeError
  | PyBool b => Ok (if b then Float.one else Float.zero)
  | PyInt z =>
      let f := Float.of_Z z in
      if Float.is_inf f then Raise OverflowError else Ok f
  | PyFloat f => Ok f
  | PyStr s =>
      match float_from_string s with
      | Some f => Ok f
      | None => Raise ValueError
      end
  end.

(** [a / b] on two floats: Python faults on a zero divisor of either sign. *)
Definition truediv (a b : float64) : outcome float64 :=
  if Float.is_zero b then Raise ZeroDivisionError else Ok (Float.div a b).

(** [x + y] where [y] is a float, as the accumulations [acc += float(v)]
    need it: a number on the left is converted, anything else is a
    [TypeError]. *)
Definition add_float (x : pyobj) (y : float64) : outcome pyobj :=
  match x with
  | PyFloat a => Ok (PyFloat (Float.add a y))
  | PyInt z =>
      let a := Float.of_Z z in
      if Float.is_inf a then Raise OverflowError
      else Ok (PyFloat (Float.add a y))
  | PyBool b => Ok (PyFloat (Float.add (if b then Float.one else Float.zero) y))
  | PyNone | PyStr _ => Raise TypeError
  end.

(** [math.sqrt(x)]: a domain error when the root is not a number although
    the argument is one. *)
Definition sqrt (x : float64) : outcome float64 :=
  let r := Float.sqrt x in
  if Float.is_nan r && negb (Float.is_nan x) then Raise ValueError else Ok r.

(** [a > b] and [a < b] on floats. *)
Definition gt (a b : float64) : bool := Float.ltb b a.
Definition lt (a b : float64) : bool := Float.ltb a b.

(** The texts Python gives a float: [str(x)], ["%0.2f" % x] and the JSON
    encoder's, and the JSON encoder's text of a string. They belong to the
    runtime; the renderers are parametric in them. *)
Class Texts : Type := {
  float_str : float64 -> string;
  float_2f : float64 -> string;
  float_json : float64 -> string;
  str_json : string -> string
}.

(** The truth value of an object, as [if x] tests it. *)
Definition truthy (x : pyobj) : bool :=
  match x with
  | PyNone => false
  | PyBool b => b
  | PyInt z => negb (Z.eqb z 0)
  | PyFloat f => negb (Float.is_zero f)
  | PyStr s => negb (String.eqb s "")
  end.

(** [str(x)], which ['%s' % x] inserts. *)
Definition str `{Texts} (x : pyobj) : string :=
  match x with
  | PyNone => "None"
  | PyBool b => if b then "True" else "False"
  | PyInt z => pretty z
  | PyFloat f => float_str f
  | PyStr s => s
  end.

(** [s * n] on a text: [n] copies, none when [n] is not positive. *)
Definition repeat_text (s : string) (n : Z) : string :=
  Nat.iter (Z.to_nat n) (String.append s) "".

(** [x * n] for an integer [n]. *)
Definition mul_int (x : pyobj) (n : Z) : outcome pyobj :=
  match x with
  | PyNone => Raise TypeError
  | PyBool b => Ok (PyInt ((if b then 1 else 0) * n))
  | PyInt z => Ok (PyInt (z * n))
  | PyFloat f =>
      let m := Float.of_Z n in
      if Float.is_inf m then Raise OverflowError else Ok (PyFloat (Float.mul f m))
  | PyStr s => Ok (PyStr (repeat_text s n))
  end.

(** ['%0.2f' % x]: a number is converted to a float and formatted,
    anything else is a [TypeError]. *)
Definition format_2f `{Texts} (x : pyobj) : outcome string :=
  match x with
  | PyFloat f => Ok (float_2f f)
  | PyInt z =>
      let f := Float.of_Z z in
      if Float.is_inf f then Raise OverflowError else Ok (float_2f f)
  | PyBool b => Ok (float_2f (if b then Float.one else Float.zero))
  | PyNone | PyStr _ => Raise TypeError
  end.

(** The double quote character, and the JSON text of an object. *)
Definition quote : string := String (Ascii.ascii_of_nat 34) EmptyString.

Definition json_dumps `{Texts} (x : pyobj) : string :=
  match x with
  | PyNone => "null"
  | PyBool b => if b then "true" else "false"
  | PyInt z => pretty z
  | PyFloat f => float_json f
  | PyStr s => str_json s
  end.

(** ** The collaborators: geometry, measurements, districts, plans *)

Module GEOSGeometry.
Record t : Type := mk { area : float64; length : float64 }.
End GEOSGeometry.

(** A computed characteristic of a district: the name of its subject, and
    its number. *)
Record ComputedCharacteristic : Type := {
  subject__name : string;
  number : pyobj
}.

Record District : Type := {
  geom : option GEOSGeometry.t;
  computedcharacteristic_set : list ComputedCharacteristic
}.

Record Plan : Type := {
  version : nat;
  get_districts_at_version : nat -> list District
}.

(** The keyword arguments of [compute]: the keys the calculators test for. *)
Record kwargs : Type := {
  kw_district : option District;
  kw_plan : option Plan;
  kw_plans : option (list Plan)
}.

Definition district_scope (d : District) : kwargs :=
  {| kw_district := Some d; kw_plan := None; kw_plans := None |}.
Definition plan_scope (p : Plan) : kwargs :=
  {| kw_district := None; kw_plan := Some p; kw_plans := None |}.

(** ** A calculator instance and its methods *)

(** [arg_dict] maps an argument name to the tuple [(argtype, argval)]. *)
Record Calculator : Type := {
  result : pyobj;
  arg_dict : gmap string (string * pyobj)
}.

(** What [__init__] leaves. *)
Definition init : Calculator := {| result := PyNone; arg_dict := ∅ |}.

(** A method body: the instance before, the instance after and how the
    call ended. A raise keeps the instance as it was when it happened. *)
Definition M (A : Type) : Type := Calculator -> Calculator * outcome A.

Definition ret {A} (a : A) : M A := fun self => (self, Ok a).

Definition bind {A B} (m : M A) (k : A -> M B) : M B :=
  fun self =>
    match m self with
    | (self', Ok a) => k a self'
    | (self', Raise e) => (self', Raise e)
    end.

(** A computation that only reads the instance. *)
Definition read {A} (f : Calculator -> outcome A) : M A :=
  fun self => (self, f self).

Definition lift {A} (o : outcome A) : M A := fun self => (self, o).

(** [self.result = v] *)
Definition set_result (v : pyobj) : M unit :=
  fun self => ({| result := v; arg_dict := arg_dict self |}, Ok tt).

Notation "'let*' x ':=' m 'in' k" := (bind m (fun x => k))
  (at level 10, x pattern, m at level 100, k at level 200).

(** [district.computedcharacteristic_set.filter(subject__name=argval)]:
    the characteristics whose subject carries the name [argval]. *)
Definition subject__name_is (argval : pyobj) (cc : ComputedCharacteristic) : bool :=
  match argval with
  | PyStr name => String.eqb (subject__name cc) name
  | _ => false
  end.

(** [CalculatorBase.get_value]. [None] for the district is the default
    [district=None]; the result [PyNone] is the method's [return None]. *)
Definition get_value (self : Calculator) (argument : string)
    (district : option District) : outcome pyobj :=
  match arg_dict self !! argument with
  | None => Raise (KeyError argument)
  | Some (argtype, argval) =>
      if String.eqb argtype "literal" then Ok argval
      else
        match String.eqb argtype "subject", district with
        | true, Some d =>
            let cc := List.filter (subject__name_is argval)
                        (computedcharacteristic_set d) in
            match cc with
            | [] => Ok PyNone
            | c :: _ => Ok (number c)
            end
        | _, _ => Ok PyNone
        end
  end.

(** [CalculatorBase.compute]: the base class calculates nothing. *)
Module CalculatorBase.
Definition compute (kw : kwargs) : M unit := ret tt.

(** [CalculatorBase.html]: the text of the result in a span, or "n/a". *)
Definition html `{Texts} (self : Calculator) : string :=
  if negb (is_None (result self))
  then "<span>" +:+ str (result self) +:+ "</span>"
  else "<span>n/a</span>".

(** [CalculatorBase.json]: [json.dumps({'result': self.result})]. *)
Definition json `{Texts} (self : Calculator) : string :=
  "{" +:+ quote +:+ "result" +:+ quote +:+ ": "
    +:+ json_dumps (result self) +:+ "}".
End CalculatorBase.

Module Schwartzberg.

Definition compute (kw : kwargs) : M unit :=
  match kw_district kw with
  | None => ret tt
  | Some district =>
      match geom district with
      | None => ret tt
      | Some g =>
          let* q := lift (truediv (GEOSGeometry.area g) Float.pi) in
          let* r := lift (sqrt q) in
          let perimeter := Float.mul (Float.mul (Float.of_Z 2) Float.pi) r in
          let* ratio := lift (truediv perimeter (GEOSGeometry.length g)) in
          set_result (PyFloat ratio)
      end
  end.

(** [Schwartzberg.html]: the score as a percentage, or "n/a" when the
    result is false as a truth value. *)
Definition html `{Texts} (self : Calculator) : outcome string :=
  if truthy (result self) then
    match mul_int (result self) 100 with
    | Ok scaled =>
        match format_2f scaled with
        | Ok text => Ok (text +:+ "%")
        | Raise e => Raise e
        end
    | Raise e => Raise e
    end
  else Ok "n/a".

End Schwartzberg.

Module Sum.

Definition value_key (argnum : nat) : string := "value" +:+ pretty argnum.

(** One turn of the body of the [while] loop, for the argument [argnum]. *)
Definition add_value `{FloatFromString} (district : District) (argnum : nat) : M unit :=
  let* number := read (fun self => get_value self (value_key argnum) (Some district)) in
  if is_None number then ret tt
  else
    let* x := lift (float number) in
    let* acc := read (fun self => add_float (result self) x) in
    set_result acc.

(** [while ('value%d'%argnum) in self.arg_dict: ...; argnum += 1]. The
    loop is run on a budget of turns; [None] means the budget ran out
    before the loop ended. *)
Fixpoint while_value `{FloatFromString} (fuel : nat) (district : District)
    (argnum : nat) (self : Calculator) : option (Calculator * outcome unit) :=
  match fuel with
  | O => None
  | S fuel' =>
      match arg_dict self !! value_key argnum with
      | None => Some (self, Ok tt)
      | Some _ =>
          match add_value district argnum self with
          | (self', Ok _) => while_value fuel' district (S argnum) self'
          | (self', Raise e) => Some (self', Raise e)
          end
      end
  end.

(** [for district in districts: argnum = 1; while ...] *)
Fixpoint for_district `{FloatFromString} (fuel : nat) (districts : list District)
    (self : Calculator) : option (Calculator * outcome unit) :=
  match districts with
  | [] => Some (self, Ok tt)
  | district :: rest =>
      match while_value fuel district 1 self with
      | Some (self', Ok _) => for_district fuel rest self'
      | stopped => stopped
      end
  end.

Definition compute_fuel `{FloatFromString} (fuel : nat) (kw : kwargs)
    (self : Calculator) : option (Calculator * outcome unit) :=
  let run districts :=
    match set_result (PyInt 0) self with
    | (self', _) => for_district fuel districts self'
    end in
  match kw_district kw, kw_plan kw with
  | Some district, _ => run [district]
  | None, Some plan => run (get_districts_at_version plan (version plan))
  | None, None => Some (self, Ok tt)
  end.

(** Each [while] loop ends within one more turn than the dictionary has
    keys ([compute_total] below), so this budget is never exhausted. *)
Definition compute `{FloatFromString} (kw : kwargs) (self : Calculator)
    : option (Calculator * outcome unit) :=
  compute_fuel (S (size (arg_dict self))) kw self.

End Sum.

Module Percent.

(** The body of [for district in districts] on the running totals. *)
Definition accumulate `{FloatFromString} (district : District) (totals : pyobj * pyobj)
    : M (pyobj * pyobj) :=
  let num := fst totals in
  let den := snd totals in
  let* tmpnum := read (fun self => get_value self "numerator" (Some district)) in
  let* tmpden := read (fun self => get_value self "denominator" (Some district)) in
  if is_None tmpnum || is_None tmpden then ret (num, den)
  else
    let* d := lift (float tmpden) in
    let* den' := lift (add_float den d) in
    let* n := lift (float tmpnum) in
    let* num' := lift (add_float num n) in
    ret (num', den').

Fixpoint for_district `{FloatFromString} (districts : list District)
    (totals : pyobj * pyobj) : M (pyobj * pyobj) :=
  match districts with
  | [] => ret totals
  | district :: rest =>
      let* totals' := accumulate district totals in
      for_district rest totals'
  end.

(** From [if num is None or den is None] to the end of the method. *)
Definition divide `{FloatFromString} (num den : pyobj) : M unit :=
  if is_None num || is_None den then ret tt
  else
    let* n := lift (float num) in
    let* d := lift (float den) in
    let* q := lift (truediv n d) in
    set_result (PyFloat q).

Definition compute `{FloatFromString} (kw : kwargs) : M unit :=
  match kw_district kw, kw_plan kw with
  | Some district, _ =>
      let* num := read (fun self => get_value self "numerator" (Some district)) in
      let* den := read (fun self => get_value self "denominator" (Some district)) in
      divide num den
  | None, Some plan =>
      let districts := get_districts_at_version plan (version plan) in
      let* totals := for_district districts (PyInt 0, PyInt 0) in
      divide (fst totals) (snd totals)
  | None, None => ret tt
  end.

End Percent.

Module Threshold.

Definition compute `{FloatFromString} (kw : kwargs) : M unit :=
  let body (district : option District) : M unit :=
    let* val := read (fun self => get_value self "value" district) in
    let* thr := read (fun self => get_value self "threshold" district) in
    if is_None val || is_None thr then ret tt
    else
      let* v := lift (float val) in
      let* t := lift (float thr) in
      set_result (PyBool (gt v t)) in
  match kw_district kw, kw_plans kw with
  | Some district, _ => body (Some district)
  | None, Some _ => body None
  | None, None => ret tt
  end.

End Threshold.

Module Range.

Definition compute `{FloatFromString} (kw : kwargs) : M unit :=
  let body (district : option District) : M unit :=
    let* val := read (fun self => get_value self "value" district) in
    let* minval := read (fun self => get_value self "min" district) in
    let* maxval := read (fun self => get_value self "max" district) in
    if is_None val || is_None minval || is_None maxval then ret tt
    else
      let* v := lift (float val) in
      let* lo := lift (float minval) in
      if gt v lo then
        let* v' := lift (float val) in
        let* hi := lift (float maxval) in
        set_result (PyBool (lt v' hi))
      else set_result (PyBool false) in
  match kw_district kw, kw_plans kw with
  | Some district, _ => body (Some district)
  | None, Some _ => body None
  | None, None => ret tt
  end.

End Range.

(** The calculator classes, and [compute] dispatched on the class. *)
Inductive calculator : Type :=
  | CalculatorBase_
  | Schwartzberg_
  | Sum_
  | Percent_
  | Threshold_
  | Range_.

Definition compute `{FloatFromString} (cls : calculator) (kw : kwargs)
    (self : Calculator) : option (Calculator * outcome unit) :=
  match cls with
  | CalculatorBase_ => Some (CalculatorBase.compute kw self)
  | Schwartzberg_ => Some (Schwartzberg.compute kw self)
  | Sum_ => Sum.compute kw self
  | Percent_ => Some (Percent.compute kw self)
  | Threshold_ => Some (Threshold.compute kw self)
  | Range_ => Some (Range.compute kw self)
  end.

(** ** Vocabulary of the specification *)

(** The argument names a calculator resolves on every district-scope run. *)
Definition required (cls : calculator) : list string :=
  match cls with
  | Percent_ => ["numerator"; "denominator"]
  | Threshold_ => ["value"; "threshold"]
  | Range_ => ["value"; "min"; "max"]
  | CalculatorBase_ | Schwartzberg_ | Sum_ => []
  end.

(** The instance with its result slot replaced. *)
Definition with_result (v : pyobj) (self : Calculator) : Calculator :=
  {| result := v; arg_dict := arg_dict self |}.

(** The keyword [plans], which the scope test of Threshold and Range
    names. *)
Definition plans_scope (ps : list Plan) : kwargs :=
  {| kw_district := None; kw_plan := None; kw_plans := Some ps |}.

(** The districts a scope stands for, as Sum and Percent read it. *)
Definition districts_of (kw : kwargs) : option (list District) :=
  match kw_district kw, kw_plan kw with
  | Some district, _ => Some [district]
  | None, Some plan => Some (get_districts_at_version plan (version plan))
  | None, None => None
  end.

(** [for argnum in argnums: add the value] on one district: the
    enumeration the specification describes, over a known list of
    indices. *)
Fixpoint add_values `{FloatFromString} (district : District) (argnums : list nat)
    : M unit :=
  match argnums with
  | [] => ret tt
  | argnum :: rest =>
      let* _ := Sum.add_value district argnum in
      add_values district rest
  end.

(** The same enumeration on each district in turn. *)
Fixpoint add_districts `{FloatFromString} (districts : list District)
    (argnums : list nat) : M unit :=
  match districts with
  | [] => ret tt
  | district :: rest =>
      let* _ := add_values district argnums in
      add_districts rest argnums
  end.

(** The keys [value1] ... [valueK] are all present. *)
Definition contiguous (args : gmap string (string * pyobj)) (K : nat) : Prop :=
  forall i, 1 <= i <= K -> is_Some (args !! Sum.value_key i).

(** What Sum can leave in the result slot: the integer 0 it starts from,
    or a float. *)
Definition zero_or_float (v : pyobj) : Prop :=
  v = PyInt 0 \/ exists f, v = PyFloat f.

(** What a district contributes to the totals of Percent: its numerator
    and its denominator when both resolve, nothing otherwise. *)
Definition contribution (self : Calculator) (d : District) : option (pyobj * pyobj) :=
  match get_value self "numerator" (Some d), get_value self "denominator" (Some d) with
  | Ok n, Ok m => if is_None n || is_None m then None else Some (n, m)
  | _, _ => None
  end.

Definition contributions (self : Calculator) (districts : list District)
    : list (pyobj * pyobj) :=
  omap (contribution self) districts.

(** The sum of a list of floats, accumulated from zero in list order. *)
Definition total (xs : list float64) : float64 :=
  fold_left Float.add xs Float.zero.

(** The numbers the contributions convert to. *)
Definition converted `{FloatFromString} (values : list (pyobj * pyobj))
    (numbers : list (float64 * float64)) : Prop :=
  Forall2 (fun v x => float (fst v) = Ok (fst x) /\ float (snd v) = Ok (snd x))
    values numbers.

(** A running total: an object that stands for the float [a]. *)
Definition stands_for `{FloatFromString} (acc : pyobj) (a : float64) : Prop :=
  float acc = Ok a /\ forall y, add_float acc y = Ok (PyFloat (Float.add a y)).

(** A method body is blind to the result slot when, for a given argument
    mapping, how it ends and what it stores (if anything) are the same
    whatever the slot held, and the mapping is left as it was. *)
Definition blind {A} (m : M A) : Prop :=
  forall args, exists (stored : option pyobj) (o : outcome A),
    forall r,
      m {| result := r; arg_dict := args |}
      = ({| result := default r stored; arg_dict := args |}, o).

(** The configured values of the given indices that resolve on a
    district, in order. *)
Definition resolved_values (self : Calculator) (d : District) (argnums : list nat)
    : list pyobj :=
  omap (fun i =>
          match get_value self (Sum.value_key i) (Some d) with
          | Ok v => if is_None v then None else Some v
          | Raise _ => None
          end)
    argnums.

(** A running total after the floats [xs] were added to it: untouched when
    there is none, a float otherwise. *)
Definition accumulated (acc : pyobj) (a : float64) (xs : list float64) : pyobj :=
  match xs with
  | [] => acc
  | _ => PyFloat (fold_left Float.add xs a)
  end.

(** What a renderer pair shows: nothing, or a boolean. *)
Definition shows `{Texts} (self : Calculator) : Prop :=
  (result self = PyNone /\
   CalculatorBase.html self = "<span>n/a</span>" /\
   CalculatorBase.json self
   = "{" +:+ quote +:+ "result" +:+ quote +:+ ": null}") \/
  (exists b,
     result self = PyBool b /\
     CalculatorBase.html self
     = "<span>" +:+ (if b then "True" else "False") +:+ "</span>" /\
     CalculatorBase.json self
     = "{" +:+ quote +:+ "result" +:+ quote +:+ ": "
         +:+ (if b then "true" else "false") +:+ "}").

(** ** Data of the examples *)

(** The examples read the two texts below as Python does, and no other. *)
Definition sample_texts : FloatFromString :=
  fun s =>
    if String.eqb s "0.5" then Some (Float.div Float.one (Float.of_Z 2))
    else if String.eqb s "5.0001"
    then Some (Float.div (Float.of_Z 50001) (Float.of_Z 10000))
    else None.

(** The binary64 number nearest to 5.0001. *)
Definition just_above_five : float64 :=
  Float.div (Float.of_Z 50001) (Float.of_Z 10000).

Definition literal (v : pyobj) : string * pyobj := ("literal", v).
Definition subject (name : string) : string * pyobj := ("subject", PyStr name).

(** A fresh instance with its argument mapping filled in. *)
Definition configured (args : list (string * (string * pyobj))) : Calculator :=
  {| result := PyNone; arg_dict := list_to_map args |}.

(** A district without geometry that carries the given measurements. *)
Definition measured (ms : list (string * pyobj)) : District :=
  {| geom := None;
     computedcharacteristic_set :=
       List.map (fun m => {| subject__name := fst m; number := snd m |}) ms |}.

(** A district with a geometry and no measurement. *)
Definition shaped (area length : float64) : District :=
  {| geom := Some (GEOSGeometry.mk area length);
     computedcharacteristic_set := [] |}.

Definition plan_of (districts : list District) : Plan :=
  {| version := 0; get_districts_at_version := fun _ => districts |}.

(** A district of seven people, a threshold and a range given as texts. *)
Definition seven_people : District := measured [("population", PyInt 7)].
Definition above_text : Calculator :=
  configured [("value", subject "population"); ("threshold", literal (PyStr "5.0001"))].
Definition between_texts : Calculator :=
  configured [("value", literal (PyStr "0.5")); ("min", literal (PyStr "0.5"));
              ("max", subject "population")].

(** A percentage whose denominator was never configured. *)
Definition half_configured : Calculator :=
  configured [("numerator", literal (PyInt 1))].


(** A sum over subjects that the district has no measurement of, and the
    sum of a literal zero. *)
Definition sum_of_subjects : Calculator :=
  configured [("value1", subject "votes"); ("value2", subject "voters")].
Definition sum_of_zero : Calculator :=
  configured [("value1", literal (PyInt 0))].

(** The geometry of a circle of radius 1, an empty geometry, and a square
    of side 2. *)
Definition unit_circle : District :=
  shaped Float.pi (Float.mul (Float.of_Z 2) Float.pi).
Definition empty_shape : District := shaped Float.zero Float.zero.
Definition square : District := shaped (Float.of_Z 4) (Float.of_Z 8).

(** Votes out of voters, over the districts of a plan; a district whose
    voters were not counted. *)
Definition share : Calculator :=
  configured [("numerator", subject "votes"); ("denominator", subject "voters")].
Definition counted (votes voters : Z) : District :=
  measured [("votes", PyInt votes); ("voters", PyInt voters)].
Definition uncounted : District := measured [("votes", PyInt 9)].

(** A range from 10 down to 1, and the sum of one half and the votes. *)
Definition no_room : Calculator :=
  configured [("value", literal (PyInt 5)); ("min", literal (PyInt 10));
              ("max", literal (PyInt 1))].
Definition half_and_votes : Calculator :=
  configured [("value1", literal (PyStr "0.5")); ("value2", subject "votes")].

(** The examples of the renderers show no float and no string. *)
Definition no_float_texts : Texts :=
  {| float_str := fun _ => ""; float_2f := fun _ => "";
     float_json := fun _ => ""; str_json := fun s => s |}.

(** A threshold of 5 for the value 5, a range from 1 to 10 for the value
    5, and a threshold of 5 for the population. *)
Definition five_against_five : Calculator :=
  configured [("value", literal (PyInt 5)); ("threshold", literal (PyInt 5))].
Definition five_in_range : Calculator :=
  configured [("value", literal (PyInt 5)); ("min", literal (PyInt 1));
              ("max", literal (PyInt 10))].
Definition population_against_five : Calculator :=
  configured [("value", subject "population"); ("threshold", literal (PyInt 5))].

(** The texts of the two zeros as Python gives them; the examples that
    use them render no other float and no string. *)
Definition zero_texts : Texts :=
  let text (f : float64) : string :=
    match f with
    | S754_zero false => "0.0"
    | S754_zero true => "-0.0"
    | _ => ""
    end in
  {| float_str := text; float_2f := fun _ => ""; float_json := text;
     str_json := fun s => s |}.

(** * Properties *)

(** ** The argument resolver *)

Section Resolver.

Variable self : Calculator.

Lemma get_value_literal argument v district :
  arg_dict self !! argument = Some ("literal", v) ->
  get_value self argument district = Ok v.
Proof. intros E. unfold get_value. now rewrite E. Qed.

Lemma get_value_no_district argument v :
  arg_dict self !! argument = Some ("subject", v) ->
  get_value self argument None = Ok PyNone.
Proof. intros E. unfold get_value. now rewrite E. Qed.

Lemma get_value_unconfigured argument district :
  arg_dict self !! argument = None ->
  get_value self argument district = Raise (KeyError argument).
Proof. intros E. unfold get_value. now rewrite E. Qed.

(** A configured argument never makes the resolver raise. *)
Lemma get_value_configured argument entry district :
  arg_dict self !! argument = Some entry ->
  exists v, get_value self argument district = Ok v.
Proof.
  intros E. unfold get_value. rewrite E. destruct entry as [argtype argval].
  destruct (String.eqb argtype "literal"); [eauto|].
  destruct (String.eqb argtype "subject"), district as [d|]; eauto.
  destruct (List.filter _ _); eauto.
Qed.

Lemma filter_no_match name (ccs : list ComputedCharacteristic) :
  Forall (fun cc => subject__name cc <> name) ccs ->
  List.filter (subject__name_is (PyStr name)) ccs = [].
Proof.
  induction 1 as [|cc ccs Hcc _ IH]; [reflexivity|].
  cbn. apply String.eqb_neq in Hcc. now rewrite Hcc.
Qed.

Lemma get_value_first_match argument name d pre c post :
  arg_dict self !! argument = Some ("subject", PyStr name) ->
  computedcharacteristic_set d = (pre ++ c :: post)%list ->
  Forall (fun cc => subject__name cc <> name) pre ->
  subject__name c = name ->
  get_value self argument (Some d) = Ok (number c).
Proof.
  intros E Hd Hpre Hc. unfold get_value. rewrite E, Hd. cbn.
  rewrite List.filter_app, (filter_no_match _ _ Hpre). cbn.
  apply String.eqb_eq in Hc. now rewrite Hc.
Qed.

Lemma get_value_no_match argument name d :
  arg_dict self !! argument = Some ("subject", PyStr name) ->
  Forall (fun cc => subject__name cc <> name) (computedcharacteristic_set d) ->
  get_value self argument (Some d) = Ok PyNone.
Proof.
  intros E Hd. unfold get_value. rewrite E. cbn.
  now rewrite (filter_no_match _ _ Hd).
Qed.

End Resolver.

(** C7. [get_value] returns the stored value of a literal argument whether
    or not a district is supplied; for a subject argument it returns [None]
    when no district is supplied, the number of the district's first
    characteristic about the named subject when a district is supplied, and
    [None] when the district has no characteristic about it. *)
Theorem get_value_resolves (self : Calculator) (argument : string) :
  (forall v district,
      arg_dict self !! argument = Some ("literal", v) ->
      get_value self argument district = Ok v) /\
  (forall v,
      arg_dict self !! argument = Some ("subject", v) ->
      get_value self argument None = Ok PyNone) /\
  (forall name d pre c post,
      arg_dict self !! argument = Some ("subject", PyStr name) ->
      computedcharacteristic_set d = (pre ++ c :: post)%list ->
      Forall (fun cc => subject__name cc <> name) pre ->
      subject__name c = name ->
      get_value self argument (Some d) = Ok (number c)) /\
  (forall name d,
      arg_dict self !! argument = Some ("subject", PyStr name) ->
      Forall (fun cc => subject__name cc <> name) (computedcharacteristic_set d) ->
      get_value self argument (Some d) = Ok PyNone).
Proof.
  repeat split; intros.
  - now apply get_value_literal.
  - now apply get_value_no_district with v.
  - now apply get_value_first_match with name pre post.
  - now apply get_value_no_match with name.
Qed.

(** The number of the first matching measurement is returned: of two
    counts of votes, the first. *)
Lemma get_value_example :
  get_value share "numerator" (Some (measured [("voters", PyInt 2); ("votes", PyInt 1);
                                             ("votes", PyInt 5)]))
  = Ok (PyInt 1)
  /\ get_value share "numerator" None = Ok PyNone
  /\ get_value half_configured "numerator" None = Ok (PyInt 1).
Proof.
  destruct (get_value_resolves share "numerator") as (_ & absent & first & _).
  destruct (get_value_resolves half_configured "numerator") as (stored & _).
  split; [|split].
  - apply (first "votes" _ [{| subject__name := "voters"; number := PyInt 2 |}]
             {| subject__name := "votes"; number := PyInt 1 |}
             [{| subject__name := "votes"; number := PyInt 5 |}]);
      [reflexivity | reflexivity | | reflexivity].
    constructor; [discriminate | constructor].
  - apply (absent (PyStr "votes")). reflexivity.
  - apply stored. reflexivity.
Defined.

(** ** Built-ins *)

Arguments float {_} x : simpl never.
Arguments truediv a b : simpl never.
Arguments sqrt x : simpl never.
Arguments add_float x y : simpl never.
Arguments get_value self argument district : simpl never.

Lemma float_not_None `{FloatFromString} x v : float x = Ok v -> is_None x = false.
Proof. now destruct x. Qed.

(** ** Threshold and Range *)

Ltac run_method :=
  unfold Percent.compute, Percent.divide, Threshold.compute, Range.compute,
    Schwartzberg.compute, CalculatorBase.compute,
    bind, read, lift, ret, set_result, with_result; cbn.

Section Comparisons.

Context `{FloatFromString}.
Variables (self : Calculator) (d : District).

Lemma Threshold_abstains val thr :
  get_value self "value" (Some d) = Ok val ->
  get_value self "threshold" (Some d) = Ok thr ->
  is_None val || is_None thr = true ->
  Threshold.compute (district_scope d) self = (self, Ok tt).
Proof. intros Ev Et N. run_method. now rewrite Ev, Et, N. Qed.

Lemma Threshold_compares val thr v t :
  get_value self "value" (Some d) = Ok val ->
  get_value self "threshold" (Some d) = Ok thr ->
  float val = Ok v ->
  float thr = Ok t ->
  Threshold.compute (district_scope d) self
  = (with_result (PyBool (Float.ltb t v)) self, Ok tt).
Proof.
  intros Ev Et Fv Ft. run_method.
  now rewrite Ev, Et, (float_not_None _ _ Fv), (float_not_None _ _ Ft), Fv, Ft.
Qed.

Lemma Range_abstains val minval maxval :
  get_value self "value" (Some d) = Ok val ->
  get_value self "min" (Some d) = Ok minval ->
  get_value self "max" (Some d) = Ok maxval ->
  is_None val || is_None minval || is_None maxval = true ->
  Range.compute (district_scope d) self = (self, Ok tt).
Proof. intros Ev El Eh N. run_method. now rewrite Ev, El, Eh, N. Qed.

Lemma Range_compares val minval maxval v lo hi :
  get_value self "value" (Some d) = Ok val ->
  get_value self "min" (Some d) = Ok minval ->
  get_value self "max" (Some d) = Ok maxval ->
  float val = Ok v ->
  float minval = Ok lo ->
  float maxval = Ok hi ->
  Range.compute (district_scope d) self
  = (with_result (PyBool (Float.ltb lo v && Float.ltb v hi)) self, Ok tt).
Proof.
  intros Ev El Eh Fv Fl Fh. run_method. rewrite Ev, El, Eh.
  rewrite (float_not_None _ _ Fv), (float_not_None _ _ Fl),
    (float_not_None _ _ Fh), Fv, Fl. unfold gt, lt. cbn.
  destruct (Float.ltb lo v); cbn; [now rewrite Fh | reflexivity].
Qed.

End Comparisons.

Lemma ltb_irreflexive (x : float64) : Float.ltb x x = false.
Proof.
  unfold Float.ltb, SFltb.
  destruct x as [s|s| |s m e];
    [now destruct s | now destruct s | reflexivity |].
  unfold SFcompare. rewrite Z.compare_refl, Pos.compare_cont_refl.
  now destruct s.
Qed.

(** C6. On a district scope, once its arguments resolve, Threshold stores
    the strict comparison [value > threshold] and Range stores
    [min < value < max] with both bounds excluded; either abstains when a
    required value resolves to [None]. Value 5 against threshold 5 gives
    false and 5.0001 gives true; value 1 in the range from 1 to 10 gives
    false and 5 gives true. *)
Theorem threshold_and_range_are_strict `{FloatFromString} :
  (forall self d val thr,
      get_value self "value" (Some d) = Ok val ->
      get_value self "threshold" (Some d) = Ok thr ->
      (is_None val || is_None thr = true ->
       Threshold.compute (district_scope d) self = (self, Ok tt)) /\
      (forall v t, float val = Ok v -> float thr = Ok t ->
       Threshold.compute (district_scope d) self
       = (with_result (PyBool (Float.ltb t v)) self, Ok tt)) /\
      (forall v, float val = Ok v -> float thr = Ok v ->
       Threshold.compute (district_scope d) self
       = (with_result (PyBool false) self, Ok tt))) /\
  (forall self d val minval maxval,
      get_value self "value" (Some d) = Ok val ->
      get_value self "min" (Some d) = Ok minval ->
      get_value self "max" (Some d) = Ok maxval ->
      (is_None val || is_None minval || is_None maxval = true ->
       Range.compute (district_scope d) self = (self, Ok tt)) /\
      (forall v lo hi, float val = Ok v -> float minval = Ok lo -> float maxval = Ok hi ->
       Range.compute (district_scope d) self
       = (with_result (PyBool (Float.ltb lo v && Float.ltb v hi)) self, Ok tt))) /\
  (forall d,
      result (fst (Threshold.compute (district_scope d)
        (configured [("value", literal (PyInt 5)); ("threshold", literal (PyInt 5))])))
      = PyBool false /\
      result (fst (Threshold.compute (district_scope d)
        (configured [("value", literal (PyFloat just_above_five));
                     ("threshold", literal (PyInt 5))])))
      = PyBool true /\
      result (fst (Range.compute (district_scope d)
        (configured [("value", literal (PyInt 1)); ("min", literal (PyInt 1));
                     ("max", literal (PyInt 10))])))
      = PyBool false /\
      result (fst (Range.compute (district_scope d)
        (configured [("value", literal (PyInt 5)); ("min", literal (PyInt 1));
                     ("max", literal (PyInt 10))])))
      = PyBool true).
Proof.
  split; [|split].
  - intros self d val thr Ev Et. split; [|split]; intros.
    + eapply Threshold_abstains; eauto.
    + eapply Threshold_compares; eauto.
    + erewrite Threshold_compares by eauto. now rewrite ltb_irreflexive.
  - intros self d val minval maxval Ev El Eh. split; intros.
    + eapply Range_abstains; eauto.
    + eapply Range_compares; eauto.
  - intros d. split; [|split; [|split]].
    + now erewrite Threshold_compares by (vm_compute; reflexivity).
    + now erewrite Threshold_compares by (vm_compute; reflexivity).
    + now erewrite Range_compares by (vm_compute; reflexivity).
    + now erewrite Range_compares by (vm_compute; reflexivity).
Qed.

(** Seven people exceed the threshold 5.0001; one half does not lie
    strictly above the lower bound one half. *)
Lemma threshold_and_range_examples :
  Threshold.compute (H := sample_texts) (district_scope seven_people) above_text
  = (with_result (PyBool true) above_text, Ok tt)
  /\ Range.compute (H := sample_texts) (district_scope seven_people) between_texts
  = (with_result (PyBool false) between_texts, Ok tt).
Proof.
  destruct (threshold_and_range_are_strict (H := sample_texts)) as (T & R & _).
  split.
  - destruct (T above_text seven_people (PyInt 7) (PyStr "5.0001") eq_refl eq_refl)
      as (_ & compares & _).
    exact (compares (Float.of_Z 7) just_above_five eq_refl eq_refl).
  - destruct (R between_texts seven_people (PyStr "0.5") (PyStr "0.5") (PyInt 7)
                eq_refl eq_refl eq_refl) as (_ & compares).
    exact (compares _ _ _ eq_refl eq_refl eq_refl).
Defined.

(** Threshold and Range invoked with the keyword [plan] (as Sum and
    Percent read a plan) do nothing, whatever the argument mapping and the
    plan: the call returns with the instance as it was, so a result slot
    that was unset stays unset and no boolean is stored. *)
Theorem plan_scope_is_no_op `{FloatFromString} (self : Calculator) (p : Plan) :
  Threshold.compute (plan_scope p) self = (self, Ok tt) /\
  Range.compute (plan_scope p) self = (self, Ok tt) /\
  (forall args b,
      result (fst (Threshold.compute (plan_scope p)
                     {| result := PyNone; arg_dict := args |})) <> PyBool b /\
      result (fst (Range.compute (plan_scope p)
                     {| result := PyNone; arg_dict := args |})) <> PyBool b).
Proof.
  split; [reflexivity|]. split; [reflexivity|].
  intros args b. split; discriminate.
Qed.

(** A call that passes the keyword [plans] goes on to resolve the arguments
    without a district: literal arguments are compared, subject arguments
    make it abstain. *)
Lemma plans_keyword_compares_literals `{FloatFromString} (ps : list Plan) :
  result (fst (Threshold.compute (plans_scope ps)
    (configured [("value", literal (PyInt 5)); ("threshold", literal (PyInt 5))])))
  = PyBool false /\
  result (fst (Threshold.compute (plans_scope ps)
    (configured [("value", subject "population"); ("threshold", literal (PyInt 5))])))
  = PyNone.
Proof. split; reflexivity. Qed.

(** ** Unconfigured arguments *)

Ltac listed :=
  repeat first [apply list_elem_of_here | apply list_elem_of_further].

Section Unconfigured.

Context `{FloatFromString}.
Variables (self : Calculator) (d : District).

(** A run that looks up [argument] first and finds it unconfigured. *)
Ltac key_error argument :=
  exists argument; split; [listed|]; split; [assumption|];
  cbn; run_method; now rewrite ?get_value_unconfigured by assumption.

Ltac lookup_next argument :=
  destruct (arg_dict self !! argument) as [?entry|] eqn:?E;
  [ destruct (get_value_configured self argument _ (Some d) ltac:(eassumption))
      as [?v ?G]
  | ].

Lemma required_unconfigured_raises cls argument :
  argument ∈ required cls ->
  arg_dict self !! argument = None ->
  exists missing,
    missing ∈ required cls /\
    arg_dict self !! missing = None /\
    compute cls (district_scope d) self = Some (self, Raise (KeyError missing)).
Proof.
  intros Hin Hnone.
  destruct cls; cbn in Hin; try (now apply elem_of_nil in Hin).
  - (* Percent *)
    lookup_next "numerator"; [|key_error "numerator"].
    assert (arg_dict self !! "denominator" = None) as E'
      by (repeat (apply elem_of_cons in Hin as [->|Hin]);
          [congruence | assumption | now apply elem_of_nil in Hin]).
    exists "denominator". split; [listed|]. split; [assumption|].
    cbn. run_method. now rewrite G, get_value_unconfigured.
  - (* Threshold *)
    lookup_next "value"; [|key_error "value"].
    assert (arg_dict self !! "threshold" = None) as E'
      by (repeat (apply elem_of_cons in Hin as [->|Hin]);
          [congruence | assumption | now apply elem_of_nil in Hin]).
    exists "threshold". split; [listed|]. split; [assumption|].
    cbn. run_method. now rewrite G, get_value_unconfigured.
  - (* Range *)
    lookup_next "value"; [|key_error "value"].
    lookup_next "min".
    + assert (arg_dict self !! "max" = None) as E'
        by (repeat (apply elem_of_cons in Hin as [->|Hin]);
            [congruence | congruence | assumption | now apply elem_of_nil in Hin]).
      exists "max". split; [listed|]. split; [assumption|].
      cbn. run_method. now rewrite G, G0, get_value_unconfigured.
    + exists "min". split; [listed|]. split; [assumption|].
      cbn. run_method. now rewrite G, get_value_unconfigured.
Qed.

End Unconfigured.

(** C8. An argument name that is absent from the argument mapping makes
    [get_value] raise a [KeyError]; so Percent, Threshold and Range on a
    district scope raise, and leave the instance as it was, when one of
    the names they require was never configured: the error names the first
    required name that is missing. *)
Theorem unconfigured_argument_raises `{FloatFromString}
    (cls : calculator) (self : Calculator) (d : District) (argument : string) :
  arg_dict self !! argument = None ->
  (forall district, get_value self argument district = Raise (KeyError argument)) /\
  (argument ∈ required cls ->
   exists missing,
     missing ∈ required cls /\
     arg_dict self !! missing = None /\
     compute cls (district_scope d) self = Some (self, Raise (KeyError missing))).
Proof.
  intros Hnone. split.
  - intros district. now apply get_value_unconfigured.
  - intros Hin. now apply required_unconfigured_raises with argument.
Qed.

(** A percentage without a configured denominator raises on a district. *)
Lemma unconfigured_argument_example :
  get_value half_configured "denominator" None = Raise (KeyError "denominator") /\
  exists missing,
    missing ∈ required Percent_ /\
    arg_dict half_configured !! missing = None /\
    compute (H := sample_texts) Percent_ (district_scope seven_people) half_configured
    = Some (half_configured, Raise (KeyError missing)).
Proof.
  destruct (unconfigured_argument_raises (H := sample_texts) Percent_
              half_configured seven_people "denominator" eq_refl) as [G C].
  split; [apply G | apply C; listed].
Defined.

(** ** Sum: the enumeration of [value1], [value2], ... *)

Section Enumeration.

Context `{FloatFromString}.

Lemma value_key_inj : Inj (=) (=) Sum.value_key.
Proof.
  intros i j E. unfold Sum.value_key in E.
  apply (inj pretty). apply (inj (String.app "value")). exact E.
Qed.

Lemma add_value_args district argnum self :
  arg_dict (fst (Sum.add_value district argnum self)) = arg_dict self.
Proof.
  unfold Sum.add_value, bind, read, lift, ret, set_result.
  destruct (get_value _ _ _) as [number|]; [|reflexivity].
  destruct (is_None number); [reflexivity|].
  destruct (float number); [|reflexivity].
  now destruct (add_float _ _).
Qed.

Lemma add_values_args district argnums self :
  arg_dict (fst (add_values district argnums self)) = arg_dict self.
Proof.
  revert self. induction argnums as [|n rest IH]; intros self; [reflexivity|].
  cbn. unfold bind. pose proof (add_value_args district n self) as E.
  destruct (Sum.add_value district n self) as [self' [[]|e]]; cbn in *.
  - now rewrite IH.
  - assumption.
Qed.

Lemma add_districts_args districts argnums self :
  arg_dict (fst (add_districts districts argnums self)) = arg_dict self.
Proof.
  revert self. induction districts as [|d rest IH]; intros self; [reflexivity|].
  cbn. unfold bind. pose proof (add_values_args d argnums self) as E.
  destruct (add_values d argnums self) as [self' [[]|e]]; cbn in *.
  - now rewrite IH.
  - assumption.
Qed.

(** The [while] loop started at [argnum] visits exactly the [K] indices up
    to the first absent key, provided its budget exceeds [K]. *)
Lemma while_value_stops_at_gap district K : forall fuel argnum self,
  (forall i, argnum <= i < argnum + K -> is_Some (arg_dict self !! Sum.value_key i)) ->
  arg_dict self !! Sum.value_key (argnum + K) = None ->
  K < fuel ->
  Sum.while_value fuel district argnum self
  = Some (add_values district (seq argnum K) self).
Proof.
  induction K as [|K IH]; intros fuel argnum self Hall Hgap Hfuel;
    (destruct fuel as [|fuel]; [lia|]); cbn [Sum.while_value add_values seq].
  - rewrite Nat.add_0_r in Hgap. now rewrite Hgap.
  - destruct (Hall argnum ltac:(lia)) as [entry ->].
    unfold bind. pose proof (add_value_args district argnum self) as E.
    destruct (Sum.add_value district argnum self) as [self' [[]|e]]; cbn in E;
      [|reflexivity].
    apply IH; [| |lia]; rewrite E.
    + intros i Hi. apply Hall. lia.
    + now replace (S argnum + K) with (argnum + S K) by lia.
Qed.

Lemma for_district_enumerates districts K : forall fuel self,
  contiguous (arg_dict self) K ->
  arg_dict self !! Sum.value_key (S K) = None ->
  K < fuel ->
  Sum.for_district fuel districts self
  = Some (add_districts districts (seq 1 K) self).
Proof.
  induction districts as [|d rest IH]; intros fuel self Hall Hgap Hfuel;
    [reflexivity|].
  cbn [Sum.for_district add_districts].
  rewrite (while_value_stops_at_gap d K fuel 1 self) by (auto; intros; apply Hall; lia).
  unfold bind. pose proof (add_values_args d (seq 1 K) self) as E.
  destruct (add_values d (seq 1 K) self) as [self' [[]|e]]; cbn in E;
    [|reflexivity].
  apply IH; [| |assumption]; now rewrite E.
Qed.

(** As many keys as the enumeration visits are in the dictionary. *)
Lemma contiguous_bound (args : gmap string (string * pyobj)) K :
  contiguous args K -> K <= size args.
Proof.
  intros Hall.
  pose (keys := list_to_set (Sum.value_key <$> seq 1 K) : gset string).
  assert (size keys = K) as Hkeys.
  { unfold keys. rewrite size_list_to_set.
    - now rewrite length_fmap, length_seq.
    - apply NoDup_fmap_2; [apply value_key_inj | apply NoDup_seq]. }
  rewrite <- Hkeys, <- (size_dom (D := gset string) args).
  apply subseteq_size. intros key Hkey.
  apply elem_of_list_to_set, list_elem_of_fmap in Hkey as (i & -> & Hi).
  apply elem_of_dom, Hall. apply elem_of_seq in Hi. lia.
Qed.

(** The enumeration meets an absent key: there is a first gap. *)
Lemma first_gap (args : gmap string (string * pyobj)) :
  exists K, contiguous args K /\ args !! Sum.value_key (S K) = None.
Proof.
  assert (Hsearch : forall n,
    contiguous args n \/
    exists K, contiguous args K /\ args !! Sum.value_key (S K) = None).
  { induction n as [|n [Hall|Hgap]].
    - left. intros i Hi. lia.
    - destruct (args !! Sum.value_key (S n)) as [entry|] eqn:E.
      + left. intros i Hi. destruct (decide (i = S n)) as [->|].
        * now rewrite E.
        * apply Hall. lia.
      + right. now exists n.
    - now right. }
  destruct (Hsearch (S (size args))) as [Hall|Hgap]; [|assumption].
  apply contiguous_bound in Hall. lia.
Qed.

Lemma compute_enumerates kw self districts K :
  districts_of kw = Some districts ->
  contiguous (arg_dict self) K ->
  arg_dict self !! Sum.value_key (S K) = None ->
  Sum.compute kw self
  = Some (add_districts districts (seq 1 K) (with_result (PyInt 0) self)).
Proof.
  intros Hkw Hall Hgap. unfold Sum.compute, Sum.compute_fuel, districts_of in *.
  pose proof (contiguous_bound _ _ Hall) as Hbound.
  destruct (kw_district kw) as [d|], (kw_plan kw) as [p|];
    try discriminate; injection Hkw as <-;
    cbv beta zeta iota delta [set_result with_result];
    apply for_district_enumerates; cbn [arg_dict]; auto; lia.
Qed.

(** [Sum.compute] always comes to an end within its budget. *)
Lemma compute_total kw self : is_Some (Sum.compute kw self).
Proof.
  destruct (first_gap (arg_dict self)) as (K & Hall & Hgap).
  destruct (districts_of kw) as [districts|] eqn:Hkw.
  - rewrite (compute_enumerates kw self districts K); eauto.
  - unfold Sum.compute, Sum.compute_fuel, districts_of in *.
    destruct (kw_district kw), (kw_plan kw); try discriminate; eauto.
Qed.

End Enumeration.

Section SumResults.

Context `{FloatFromString}.

Lemma get_value_agree s1 s2 argument district :
  arg_dict s1 !! argument = arg_dict s2 !! argument ->
  get_value s1 argument district = get_value s2 argument district.
Proof. intros E. unfold get_value. now rewrite E. Qed.




(** A turn leaves the result slot as it was or stores a float in it. *)
Lemma add_value_result d n self :
  result (fst (Sum.add_value d n self)) = result self \/
  exists f, result (fst (Sum.add_value d n self)) = PyFloat f.
Proof.
  unfold Sum.add_value, bind, read, lift, ret, set_result.
  destruct (get_value self _ _) as [number|]; [|now left].
  destruct (is_None number); [now left|].
  destruct (float number) as [x|]; [|now left].
  destruct (add_float (result self) x) as [acc|] eqn:E; [|now left].
  right. unfold add_float in E.
  destruct (result self); try discriminate;
    repeat match type of E with context [if ?c then _ else _] =>
      destruct c end;
    try discriminate; injection E as <-; cbn; eauto.
Qed.

Lemma add_values_result d argnums : forall self,
  zero_or_float (result self) ->
  zero_or_float (result (fst (add_values d argnums self))).
Proof.
  induction argnums as [|n rest IH]; intros self Hz; [assumption|].
  cbn [add_values]. unfold bind.
  pose proof (add_value_result d n self) as R.
  destruct (Sum.add_value d n self) as [self' [[]|e]]; cbn in R.
  - apply IH. destruct R as [->|R]; [assumption|now right].
  - cbn. destruct R as [->|R]; [assumption|now right].
Qed.

Lemma add_districts_result districts argnums : forall self,
  zero_or_float (result self) ->
  zero_or_float (result (fst (add_districts districts argnums self))).
Proof.
  induction districts as [|d rest IH]; intros self Hz; [assumption|].
  cbn [add_districts]. unfold bind.
  pose proof (add_values_result d argnums self Hz) as R.
  destruct (add_values d argnums self) as [self' [[]|e]]; cbn in R.
  - now apply IH.
  - assumption.
Qed.

(** An argument that resolves to [None] adds nothing. *)
Lemma add_value_unresolved d n self :
  get_value self (Sum.value_key n) (Some d) = Ok PyNone ->
  Sum.add_value d n self = (self, Ok tt).
Proof.
  intros E. unfold Sum.add_value, bind, read, lift, ret. now rewrite E.
Qed.

Lemma add_values_unresolved d argnums self :
  (forall i, i ∈ argnums ->
     get_value self (Sum.value_key i) (Some d) = Ok PyNone) ->
  add_values d argnums self = (self, Ok tt).
Proof.
  induction argnums as [|n rest IH]; intros Hu; [reflexivity|].
  cbn [add_values]. unfold bind.
  rewrite add_value_unresolved by (apply Hu; listed).
  apply IH. intros i Hi. apply Hu. now apply list_elem_of_further.
Qed.

Lemma add_districts_unresolved districts argnums self :
  (forall d i, d ∈ districts -> i ∈ argnums ->
     get_value self (Sum.value_key i) (Some d) = Ok PyNone) ->
  add_districts districts argnums self = (self, Ok tt).
Proof.
  induction districts as [|d rest IH]; intros Hu; [reflexivity|].
  cbn [add_districts]. unfold bind.
  rewrite add_values_unresolved by (intros; apply Hu; [listed|assumption]).
  apply IH. intros d' i Hd Hi. apply Hu; [now apply list_elem_of_further|assumption].
Qed.

End SumResults.



Section SumNeverAbstains.

Context `{FloatFromString}.
Variables (kw : kwargs) (self : Calculator) (districts : list District).
Hypothesis scope : districts_of kw = Some districts.

Lemma Sum_result_is_set :
  exists s o,
    Sum.compute kw self = Some (s, o) /\
    result s <> PyNone /\
    zero_or_float (result s).
Proof.
  destruct (first_gap (arg_dict self)) as (K & Hall & Hgap).
  rewrite (compute_enumerates kw self districts K scope Hall Hgap).
  pose proof (add_districts_result districts (seq 1 K)
                (with_result (PyInt 0) self) (or_introl eq_refl)) as Hz.
  destruct (add_districts districts (seq 1 K) (with_result (PyInt 0) self))
    as [s o]. cbn in Hz.
  exists s, o. split; [reflexivity|]. split; [|assumption].
  destruct Hz as [->|[f ->]]; discriminate.
Qed.

Lemma Sum_unresolved_is_zero :
  (forall d i, d ∈ districts ->
     is_Some (arg_dict self !! Sum.value_key i) ->
     get_value self (Sum.value_key i) (Some d) = Ok PyNone) ->
  Sum.compute kw self = Some (with_result (PyInt 0) self, Ok tt).
Proof.
  intros Hu.
  destruct (first_gap (arg_dict self)) as (K & Hall & Hgap).
  rewrite (compute_enumerates kw self districts K scope Hall Hgap).
  f_equal. apply add_districts_unresolved.
  intros d i Hd Hi. apply elem_of_seq in Hi.
  rewrite <- (Hu d i Hd) by (apply Hall; lia).
  now apply get_value_agree.
Qed.

End SumNeverAbstains.

(** Once its scope is recognised (a district or a plan), Sum stores 0 in
    the result slot before it accumulates, so the call ends with the
    result set, to 0 or to a float, whether it returns or raises; with an
    empty argument mapping, or with every configured value unresolved on
    every district, it returns with the result 0. *)
Theorem sum_always_sets_result `{FloatFromString}
    (kw : kwargs) (self : Calculator) (districts : list District) :
  districts_of kw = Some districts ->
  (exists s o,
      Sum.compute kw self = Some (s, o) /\
      result s <> PyNone /\
      zero_or_float (result s)) /\
  (arg_dict self = ∅ ->
   Sum.compute kw self = Some (with_result (PyInt 0) self, Ok tt)) /\
  ((forall d i, d ∈ districts ->
      is_Some (arg_dict self !! Sum.value_key i) ->
      get_value self (Sum.value_key i) (Some d) = Ok PyNone) ->
   Sum.compute kw self = Some (with_result (PyInt 0) self, Ok tt)).
Proof.
  intros Hkw. split; [|split].
  - now apply Sum_result_is_set with districts.
  - intros Hempty. apply Sum_unresolved_is_zero with districts; [assumption|].
    intros d i _ [entry Hentry].
    rewrite Hempty in Hentry. now rewrite lookup_empty in Hentry.
  - now apply Sum_unresolved_is_zero.
Qed.

(** A sum whose subjects the district does not measure has its result
    set; the sum of a literal zero is the float zero. *)
Lemma sum_without_data_is_zero :
  (exists s o,
      Sum.compute (H := sample_texts) (district_scope seven_people) sum_of_subjects
      = Some (s, o) /\ result s <> PyNone /\ zero_or_float (result s)) /\
  Sum.compute (H := sample_texts) (district_scope seven_people) sum_of_zero
  = Some (with_result (PyFloat Float.zero) sum_of_zero, Ok tt).
Proof.
  destruct (sum_always_sets_result (H := sample_texts)
              (district_scope seven_people) sum_of_subjects [seven_people] eq_refl)
    as [Hset _].
  split; [exact Hset | reflexivity].
Defined.

(** ** Schwartzberg: the root is defined *)

Section RoundingFacts.

Variables prec emax : Z.

Lemma iter_pos_invariant {A} (P : A -> Prop) (f : A -> A) :
  (forall x, P x -> P (f x)) -> forall p x, P x -> P (SpecFloat.iter_pos f p x).
Proof.
  intros Hf. induction p as [p IH|p IH|]; intros x Hx; cbn; auto.
Qed.

Lemma shr_1_nonneg mrs : (0 <= shr_m mrs)%Z -> (0 <= shr_m (shr_1 mrs))%Z.
Proof.
  destruct mrs as [m r s]. cbn. intros Hm.
  destruct m as [|[p|p|]|p]; cbn; lia.
Qed.

Lemma shr_nonneg mrs e n :
  (0 <= shr_m mrs)%Z -> (0 <= shr_m (fst (shr mrs e n)))%Z.
Proof.
  intros Hm. destruct n as [|p|p]; cbn; try assumption.
  now apply iter_pos_invariant; [apply shr_1_nonneg|].
Qed.

Lemma shr_fexp_nonneg m e l :
  (0 <= m)%Z -> (0 <= shr_m (fst (shr_fexp prec emax m e l)))%Z.
Proof.
  intros Hm. unfold shr_fexp. apply shr_nonneg.
  now destruct l as [|[]].
Qed.

Lemma round_nearest_even_nonneg m l :
  (0 <= m)%Z -> (0 <= round_nearest_even m l)%Z.
Proof.
  intros Hm. destruct l as [|[]]; cbn; try lia.
  destruct (Z.even m); lia.
Qed.

Lemma binary_round_aux_not_nan sx mx ex lx :
  (0 <= mx)%Z -> binary_round_aux prec emax sx mx ex lx <> S754_nan.
Proof.
  intros Hm. unfold binary_round_aux.
  pose proof (shr_fexp_nonneg mx ex lx Hm) as H1.
  destruct (shr_fexp prec emax mx ex lx) as [mrs' e']. cbn in H1.
  pose proof (shr_fexp_nonneg _ e' loc_Exact
                (round_nearest_even_nonneg _ (loc_of_shr_record mrs') H1)) as H2.
  destruct (shr_fexp prec emax _ e' loc_Exact) as [mrs'' e'']. cbn in H2.
  destruct (shr_m mrs'') as [|m|m]; [discriminate| |lia].
  now destruct (Z.leb _ _).
Qed.

(** A rounded number carries the sign it was given, unless it is no number. *)
Lemma binary_round_aux_sign sx mx ex lx :
  match binary_round_aux prec emax sx mx ex lx with
  | S754_zero s | S754_infinity s | S754_finite s _ _ => s = sx
  | S754_nan => True
  end.
Proof.
  unfold binary_round_aux.
  destruct (shr_fexp prec emax mx ex lx) as [mrs' e'].
  destruct (shr_fexp prec emax _ e' loc_Exact) as [mrs'' e''].
  destruct (shr_m mrs'') as [|m|m]; try reflexivity.
  now destruct (Z.leb _ _).
Qed.

Lemma SFsqrt_not_nan m e : SFsqrt prec emax (S754_finite false m e) <> S754_nan.
Proof.
  cbn. unfold SFsqrt_core_binary.
  set (m' := match _ with Zpos _ => _ | _ => _ end).
  pose proof (Z.sqrtrem_spec m') as Hs.
  assert (0 <= m')%Z as Hm'.
  { unfold m'. destruct (_ - _)%Z; try lia. apply Z.shiftl_nonneg. lia. }
  specialize (Hs Hm'). destruct (Z.sqrtrem m') as [q r].
  apply binary_round_aux_not_nan. lia.
Qed.

End RoundingFacts.

Lemma sqrt_defined (area : float64) :
  Float.ltb area Float.zero = false ->
  sqrt (Float.div area Float.pi) = Ok (Float.sqrt (Float.div area Float.pi)).
Proof.
  intros Hsign. unfold sqrt.
  assert (Float.is_nan (Float.sqrt (Float.div area Float.pi))
          && negb (Float.is_nan (Float.div area Float.pi)) = false) as ->;
    [|reflexivity].
  destruct area as [s|s| |s m e]; try reflexivity.
  - now destruct s.
  - destruct s; [discriminate|].
    unfold Float.div, Float.pi. cbn [SFdiv xorb].
    destruct (SFdiv_core_binary _ _ _ _ _ _) as [[mz ez] lz].
    pose proof (binary_round_aux_sign Float.prec Float.emax false mz ez lz) as Hs.
    destruct (binary_round_aux _ _ _ _ _ _) as [s|s| |s m' e']; try reflexivity.
    + now subst s.
    + subst s. pose proof (SFsqrt_not_nan Float.prec Float.emax m' e') as Hn.
      unfold Float.sqrt. now destruct (SFsqrt _ _ _).
Qed.

(** C5, as amended. Schwartzberg on a district scope abstains when the
    district has no geometry; when it has one whose area is not negative
    and whose perimeter is not zero, it stores the perimeter of the circle
    of equal area, [2 * pi * sqrt(area / pi)], divided by the perimeter of
    the district; on a circle of area [pi] and perimeter [2 * pi] that is
    exactly 1.0. *)
Theorem schwartzberg_ratio (self : Calculator) (d : District) :
  (geom d = None ->
   Schwartzberg.compute (district_scope d) self = (self, Ok tt)) /\
  (forall g,
      geom d = Some g ->
      Float.ltb (GEOSGeometry.area g) Float.zero = false ->
      Float.is_zero (GEOSGeometry.length g) = false ->
      Schwartzberg.compute (district_scope d) self
      = (with_result
           (PyFloat
              (Float.div
                 (Float.mul (Float.mul (Float.of_Z 2) Float.pi)
                    (Float.sqrt (Float.div (GEOSGeometry.area g) Float.pi)))
                 (GEOSGeometry.length g)))
           self,
         Ok tt)) /\
  Schwartzberg.compute (district_scope unit_circle) self
  = (with_result (PyFloat Float.one) self, Ok tt).
Proof.
  assert (Hratio : forall g,
      geom d = Some g ->
      Float.ltb (GEOSGeometry.area g) Float.zero = false ->
      Float.is_zero (GEOSGeometry.length g) = false ->
      Schwartzberg.compute (district_scope d) self
      = (with_result
           (PyFloat
              (Float.div
                 (Float.mul (Float.mul (Float.of_Z 2) Float.pi)
                    (Float.sqrt (Float.div (GEOSGeometry.area g) Float.pi)))
                 (GEOSGeometry.length g)))
           self,
         Ok tt)).
  { intros g Hg Harea Hlength. run_method. rewrite Hg.
    unfold truediv at 1. cbn [Float.is_zero Float.pi].
    rewrite (sqrt_defined _ Harea). unfold truediv. now rewrite Hlength. }
  split; [|split].
  - intros Hg. run_method. now rewrite Hg.
  - exact Hratio.
  - reflexivity.
Qed.

(** The score of a square of side 2. *)
Lemma schwartzberg_on_a_square :
  Schwartzberg.compute (district_scope square) init
  = (with_result
       (PyFloat
          (Float.div
             (Float.mul (Float.mul (Float.of_Z 2) Float.pi)
                (Float.sqrt (Float.div (Float.of_Z 4) Float.pi)))
             (Float.of_Z 8)))
       init,
     Ok tt).
Proof.
  exact (proj1 (proj2 (schwartzberg_ratio init square)) _ eq_refl eq_refl eq_refl).
Defined.

(** A geometry of perimeter zero makes the last division raise. *)
Lemma schwartzberg_empty_geometry_raises :
  geom empty_shape <> None /\
  Schwartzberg.compute (district_scope empty_shape) init
  = (init, Raise ZeroDivisionError).
Proof. split; [discriminate | reflexivity]. Qed.

(** ** Percent on a plan *)

Section PercentPlan.

Context `{FloatFromString}.
Variable self : Calculator.
Hypothesis numerator_configured : is_Some (arg_dict self !! "numerator").
Hypothesis denominator_configured : is_Some (arg_dict self !! "denominator").

Lemma zero_stands_for_zero : stands_for (PyInt 0) Float.zero.
Proof. split; reflexivity. Qed.

Lemma float_stands_for a : stands_for (PyFloat a) a.
Proof. split; reflexivity. Qed.

(** A district that contributes nothing leaves the totals alone. *)
Lemma accumulate_skips d totals :
  contribution self d = None ->
  Percent.accumulate d totals self = (self, Ok totals).
Proof.
  intros Hc. unfold contribution in Hc.
  destruct numerator_configured as [en Hn], denominator_configured as [em Hm].
  destruct (get_value_configured self _ _ (Some d) Hn) as [n Gn].
  destruct (get_value_configured self _ _ (Some d) Hm) as [m Gm].
  rewrite Gn, Gm in Hc.
  unfold Percent.accumulate, bind, read, lift, ret. rewrite Gn, Gm.
  destruct (is_None n || is_None m); [now destruct totals | discriminate].
Qed.

Lemma accumulate_adds d num den a b n m x y :
  contribution self d = Some (n, m) ->
  float n = Ok x -> float m = Ok y ->
  stands_for num a -> stands_for den b ->
  Percent.accumulate d (num, den) self
  = (self, Ok (PyFloat (Float.add a x), PyFloat (Float.add b y))).
Proof.
  intros Hc Fn Fm [_ Ha] [_ Hb]. unfold contribution in Hc.
  destruct (get_value self "numerator" (Some d)) as [n'|] eqn:Gn; [|discriminate].
  destruct (get_value self "denominator" (Some d)) as [m'|] eqn:Gm; [|discriminate].
  destruct (is_None n' || is_None m') eqn:N; [discriminate|].
  injection Hc as -> ->.
  unfold Percent.accumulate, bind, read, lift, ret. rewrite Gn, Gm, N.
  cbn [fst snd]. now rewrite Fm, Hb, Fn, Ha.
Qed.

Lemma for_district_totals districts : forall numbers num den a b,
  converted (contributions self districts) numbers ->
  stands_for num a -> stands_for den b ->
  exists num' den',
    Percent.for_district districts (num, den) self = (self, Ok (num', den')) /\
    stands_for num' (fold_left Float.add (fst <$> numbers) a) /\
    stands_for den' (fold_left Float.add (snd <$> numbers) b).
Proof.
  induction districts as [|d rest IH]; intros numbers num den a b Hconv Hnum Hden.
  - apply Forall2_nil_inv_l in Hconv as ->. now exists num, den.
  - unfold contributions in Hconv. cbn [omap list_omap] in Hconv.
    cbn [Percent.for_district]. unfold bind.
    destruct (contribution self d) as [[n m]|] eqn:Hc.
    + apply Forall2_cons_inv_l in Hconv as ([x y] & numbers' & [Fn Fm] & Hconv & ->).
      cbn [fst snd] in Fn, Fm.
      rewrite (accumulate_adds d num den a b n m x y) by assumption.
      apply (IH numbers' _ _ _ _ Hconv); apply float_stands_for.
    + rewrite accumulate_skips by assumption. now apply IH.
Qed.

Lemma divide_totals num den a b :
  stands_for num a -> stands_for den b ->
  Percent.divide num den self
  = match truediv a b with
    | Ok q => (with_result (PyFloat q) self, Ok tt)
    | Raise e => (self, Raise e)
    end.
Proof.
  intros [Fa _] [Fb _]. unfold Percent.divide, bind, lift, set_result, with_result.
  rewrite (float_not_None _ _ Fa), (float_not_None _ _ Fb), Fa, Fb. cbn.
  now destruct (truediv a b).
Qed.

Lemma compute_plan_totals p numbers :
  converted (contributions self (get_districts_at_version p (version p))) numbers ->
  Percent.compute (plan_scope p) self
  = match truediv (total (fst <$> numbers)) (total (snd <$> numbers)) with
    | Ok q => (with_result (PyFloat q) self, Ok tt)
    | Raise e => (self, Raise e)
    end.
Proof.
  intros Hconv.
  destruct (for_district_totals _ numbers (PyInt 0) (PyInt 0) Float.zero Float.zero
              Hconv zero_stands_for_zero zero_stands_for_zero)
    as (num & den & E & Hnum & Hden).
  unfold Percent.compute. cbn [plan_scope kw_district kw_plan]. unfold bind.
  rewrite E. cbn [fst snd]. now apply divide_totals.
Qed.

End PercentPlan.

(** C1. On a plan scope Percent keeps two running totals over the
    districts of the plan, the numerators and the denominators of the
    districts for which both values resolve (a district with either value
    unresolved adds to neither), and divides the total of the numerators by
    the total of the denominators once, at the end. *)
Theorem percent_plan_divides_totals `{FloatFromString}
    (self : Calculator) (p : Plan) (numbers : list (float64 * float64)) :
  is_Some (arg_dict self !! "numerator") ->
  is_Some (arg_dict self !! "denominator") ->
  converted (contributions self (get_districts_at_version p (version p))) numbers ->
  Percent.compute (plan_scope p) self
  = match truediv (total (fst <$> numbers)) (total (snd <$> numbers)) with
    | Ok q => (with_result (PyFloat q) self, Ok tt)
    | Raise e => (self, Raise e)
    end.
Proof. intros Hn Hd Hconv. now apply compute_plan_totals. Qed.

(** 1 of 2 and 3 of 2 make 4 of 4, with or without a district in between
    whose voters were not counted. *)
Lemma percent_of_two_districts_is_one :
  Percent.compute (H := sample_texts)
    (plan_scope (plan_of [counted 1 2; counted 3 2])) share
  = (with_result (PyFloat Float.one) share, Ok tt)
  /\ Percent.compute (H := sample_texts)
    (plan_scope (plan_of [counted 1 2; uncounted; counted 3 2])) share
  = (with_result (PyFloat Float.one) share, Ok tt).
Proof.
  assert (Hn : is_Some (arg_dict share !! "numerator")) by (eexists; reflexivity).
  assert (Hd : is_Some (arg_dict share !! "denominator")) by (eexists; reflexivity).
  assert (Hc : forall districts,
    contributions share districts = [(PyInt 1, PyInt 2); (PyInt 3, PyInt 2)] ->
    converted (H := sample_texts) (contributions share districts)
      [(Float.of_Z 1, Float.of_Z 2); (Float.of_Z 3, Float.of_Z 2)]).
  { intros districts ->. repeat constructor. }
  split.
  - exact (percent_plan_divides_totals (H := sample_texts) share
             (plan_of [counted 1 2; counted 3 2]) _ Hn Hd
             (Hc [counted 1 2; counted 3 2] eq_refl)).
  - exact (percent_plan_divides_totals (H := sample_texts) share
             (plan_of [counted 1 2; uncounted; counted 3 2]) _ Hn Hd
             (Hc [counted 1 2; uncounted; counted 3 2] eq_refl)).
Defined.

(** The quotient of the totals is not the mean of the quotients: with
    1 of 2 and 3 of 4 the plan scores 4/6, while the districts score 1/2
    and 3/4, whose mean is 5/8. *)
Lemma percent_of_plan_is_not_the_mean `{FloatFromString} :
  exists whole first second,
    Percent.compute (plan_scope (plan_of [counted 1 2; counted 3 4])) share
    = (with_result (PyFloat whole) share, Ok tt) /\
    Percent.compute (district_scope (counted 1 2)) share
    = (with_result (PyFloat first) share, Ok tt) /\
    Percent.compute (district_scope (counted 3 4)) share
    = (with_result (PyFloat second) share, Ok tt) /\
    Float.eqb whole (Float.div (Float.add first second) (Float.of_Z 2)) = false.
Proof.
  do 3 eexists. split; [|split; [|split]].
  - vm_compute. reflexivity.
  - vm_compute. reflexivity.
  - vm_compute. reflexivity.
  - vm_compute. reflexivity.
Qed.

(** ** What a call may depend on, and what it may change *)

Section Blind.

Context `{FloatFromString}.

Lemma blind_ret {A} (a : A) : blind (ret a).
Proof. intros args. now exists None, (Ok a). Qed.

Lemma blind_lift {A} (o : outcome A) : blind (lift o).
Proof. intros args. now exists None, o. Qed.

Lemma blind_set_result v : blind (set_result v).
Proof. intros args. now exists (Some v), (Ok tt). Qed.

Lemma blind_get_value argument district :
  blind (read (fun self => get_value self argument district)).
Proof.
  intros args.
  exists None, (get_value {| result := PyNone; arg_dict := args |} argument district).
  intros r. reflexivity.
Qed.

Lemma blind_bind {A B} (m : M A) (k : A -> M B) :
  blind m -> (forall a, blind (k a)) -> blind (bind m k).
Proof.
  intros Hm Hk args. destruct (Hm args) as (w1 & [a|e] & E1).
  - destruct (Hk a args) as (w2 & o2 & E2).
    exists (match w2 with Some v => Some v | None => w1 end), o2.
    intros r. unfold bind. rewrite E1, E2. now destruct w2.
  - exists w1, (Raise e). intros r. unfold bind. now rewrite E1.
Qed.

Lemma blind_if {A} (c : bool) (m1 m2 : M A) :
  blind m1 -> blind m2 -> blind (if c then m1 else m2).
Proof. now destruct c. Qed.

Ltac blindly :=
  repeat first
    [ apply blind_ret | apply blind_lift | apply blind_set_result
    | apply blind_get_value | apply blind_if
    | apply blind_bind; [|intros ?] ].

Lemma blind_Schwartzberg kw : blind (Schwartzberg.compute kw).
Proof.
  unfold Schwartzberg.compute.
  destruct (kw_district kw) as [d|]; [destruct (geom d)|]; blindly.
Qed.

Lemma blind_Percent_for_district districts :
  forall totals, blind (Percent.for_district districts totals).
Proof.
  induction districts as [|d rest IH]; intros totals; cbn [Percent.for_district].
  - blindly.
  - apply blind_bind; [|apply IH]. unfold Percent.accumulate. blindly.
Qed.

Lemma blind_Percent kw : blind (Percent.compute kw).
Proof.
  unfold Percent.compute, Percent.divide.
  destruct (kw_district kw), (kw_plan kw); blindly;
    apply blind_Percent_for_district.
Qed.

Lemma blind_Threshold kw : blind (Threshold.compute kw).
Proof.
  unfold Threshold.compute.
  destruct (kw_district kw), (kw_plans kw); blindly.
Qed.

Lemma blind_Range kw : blind (Range.compute kw).
Proof.
  unfold Range.compute.
  destruct (kw_district kw), (kw_plans kw); blindly.
Qed.

(** Sum reads the result slot, but only after it has stored 0 in it. *)
Lemma blind_Sum kw args :
  exists (stored : option pyobj) (o : outcome unit),
    forall r,
      Sum.compute kw {| result := r; arg_dict := args |}
      = Some ({| result := default r stored; arg_dict := args |}, o).
Proof.
  destruct (districts_of kw) as [districts|] eqn:Hkw.
  - destruct (first_gap args) as (K & Hall & Hgap).
    pose (start := {| result := PyInt 0; arg_dict := args |}).
    pose proof (add_districts_args districts (seq 1 K) start) as Hargs.
    destruct (add_districts districts (seq 1 K) start) as [[v args'] o] eqn:E.
    cbn in Hargs. subst args'.
    exists (Some v), o. intros r.
    rewrite (compute_enumerates kw {| result := r; arg_dict := args |}
               districts K Hkw Hall Hgap).
    unfold with_result. cbn [arg_dict]. fold start. now rewrite E.
  - exists None, (Ok tt). intros r.
    unfold Sum.compute, Sum.compute_fuel, districts_of in *.
    now destruct (kw_district kw), (kw_plan kw).
Qed.

Lemma blind_compute cls kw args :
  exists (stored : option pyobj) (o : outcome unit),
    forall r,
      compute cls kw {| result := r; arg_dict := args |}
      = Some ({| result := default r stored; arg_dict := args |}, o).
Proof.
  destruct cls; cbn [compute]; try apply blind_Sum;
    [ destruct (blind_ret tt args) as (w & o & E)
    | destruct (blind_Schwartzberg kw args) as (w & o & E)
    | destruct (blind_Percent kw args) as (w & o & E)
    | destruct (blind_Threshold kw args) as (w & o & E)
    | destruct (blind_Range kw args) as (w & o & E) ];
    exists w, o; intros r; f_equal; apply E.
Qed.

End Blind.

(** C10. For every calculator, calling [compute] again with the same
    scope, on the instance the first call left and with the same
    districts and measurements, ends the same way and leaves the same
    instance: the same result in the result slot, the same argument
    mapping. *)
Theorem compute_twice_is_compute_once `{FloatFromString}
    (cls : calculator) (kw : kwargs) (self : Calculator) :
  exists once o,
    compute cls kw self = Some (once, o) /\
    compute cls kw once = Some (once, o) /\
    arg_dict once = arg_dict self.
Proof.
  destruct self as [r args].
  destruct (blind_compute cls kw args) as (stored & o & E).
  exists {| result := default r stored; arg_dict := args |}, o.
  split; [apply E|]. split; [|reflexivity].
  rewrite E. now destruct stored.
Qed.

(** ** Missing data *)

Section MissingData.

Context `{FloatFromString}.
Variable self : Calculator.







End MissingData.




(** ** Totality and frame *)

(** X1. Every [compute] comes to an end (the budget of Sum's loops
    suffices) and leaves the argument mapping of the instance as it was. *)
Theorem compute_keeps_arg_dict `{FloatFromString}
    (cls : calculator) (kw : kwargs) (self : Calculator) :
  exists after o,
    compute cls kw self = Some (after, o) /\ arg_dict after = arg_dict self.
Proof.
  destruct self as [r args].
  destruct (blind_compute cls kw args) as (stored & o & E).
  exists {| result := default r stored; arg_dict := args |}, o.
  split; [apply E | reflexivity].
Qed.

(** * Further properties of the calculators *)

(** ** The resolver's only fault *)

(** X2. [get_value] raises exactly when the argument name is absent from
    the argument mapping, and then it is a [KeyError] for that name; an
    entry whose type is neither [literal] nor [subject] resolves to
    [None], with or without a district. *)
Theorem get_value_raises_iff_unconfigured
    (self : Calculator) (argument : string) (district : option District) :
  (forall e,
      get_value self argument district = Raise e <->
      arg_dict self !! argument = None /\ e = KeyError argument) /\
  (forall argtype argval,
      arg_dict self !! argument = Some (argtype, argval) ->
      argtype <> "literal" -> argtype <> "subject" ->
      get_value self argument district = Ok PyNone).
Proof.
  split.
  - intros e. split.
    + intros Hraise. destruct (arg_dict self !! argument) as [entry|] eqn:E.
      * destruct (get_value_configured self argument entry district E) as [v G].
        congruence.
      * rewrite (get_value_unconfigured self argument district E) in Hraise.
        split; [reflexivity | congruence].
    + intros [E ->]. now apply get_value_unconfigured.
  - intros argtype argval E Hl Hs. unfold get_value. rewrite E.
    apply String.eqb_neq in Hl, Hs. now rewrite Hl, Hs.
Qed.

(** ** A stale result is never read *)

(** X3. How a [compute] call ends does not depend on what the result slot
    held before the call, and neither does what it stores: from two
    instances with the same argument mapping the call ends the same way,
    and either stores the same result in both or leaves both slots as they
    were. *)
Theorem compute_ignores_previous_result `{FloatFromString}
    (cls : calculator) (kw : kwargs) (args : gmap string (string * pyobj))
    (r1 r2 : pyobj) :
  exists after1 after2 o,
    compute cls kw {| result := r1; arg_dict := args |} = Some (after1, o) /\
    compute cls kw {| result := r2; arg_dict := args |} = Some (after2, o) /\
    (result after1 = result after2 \/
     (result after1 = r1 /\ result after2 = r2)).
Proof.
  destruct (blind_compute cls kw args) as (stored & o & E).
  exists {| result := default r1 stored; arg_dict := args |},
         {| result := default r2 stored; arg_dict := args |}, o.
  split; [apply E|]. split; [apply E|].
  destruct stored; [now left | now right].
Qed.

(** ** The keyword [plans] *)

Section PlansKeyword.

Context `{FloatFromString}.
Variables (self : Calculator) (ps : list Plan).

(** Without a district, an entry resolves to its value when it is a
    literal and to [None] otherwise. *)
Lemma get_value_without_district argument argtype argval :
  arg_dict self !! argument = Some (argtype, argval) ->
  get_value self argument None
  = Ok (if String.eqb argtype "literal" then argval else PyNone).
Proof.
  intros E. unfold get_value. rewrite E.
  destruct (String.eqb argtype "literal"); [reflexivity|].
  now destruct (String.eqb argtype "subject").
Qed.

Lemma Threshold_plans_abstains tv av tt' at' :
  arg_dict self !! "value" = Some (tv, av) ->
  arg_dict self !! "threshold" = Some (tt', at') ->
  tv <> "literal" \/ tt' <> "literal" ->
  Threshold.compute (plans_scope ps) self = (self, Ok tt).
Proof.
  intros Ev Et Hsub. run_method.
  rewrite (get_value_without_district _ _ _ Ev),
    (get_value_without_district _ _ _ Et).
  destruct Hsub as [Hs|Hs]; apply String.eqb_neq in Hs; rewrite Hs;
    [reflexivity|].
  now rewrite orb_true_r.
Qed.

Lemma Threshold_plans_compares av at' v t :
  arg_dict self !! "value" = Some ("literal", av) ->
  arg_dict self !! "threshold" = Some ("literal", at') ->
  float av = Ok v -> float at' = Ok t ->
  Threshold.compute (plans_scope ps) self
  = (with_result (PyBool (Float.ltb t v)) self, Ok tt).
Proof.
  intros Ev Et Fv Ft. run_method.
  rewrite (get_value_literal self _ _ None Ev), (get_value_literal self _ _ None Et).
  now rewrite (float_not_None _ _ Fv), (float_not_None _ _ Ft), Fv, Ft.
Qed.

Lemma Range_plans_abstains tv av tl al th ah :
  arg_dict self !! "value" = Some (tv, av) ->
  arg_dict self !! "min" = Some (tl, al) ->
  arg_dict self !! "max" = Some (th, ah) ->
  tv <> "literal" \/ tl <> "literal" \/ th <> "literal" ->
  Range.compute (plans_scope ps) self = (self, Ok tt).
Proof.
  intros Ev El Eh Hsub. run_method.
  rewrite (get_value_without_district _ _ _ Ev),
    (get_value_without_district _ _ _ El),
    (get_value_without_district _ _ _ Eh).
  destruct Hsub as [Hs|[Hs|Hs]]; apply String.eqb_neq in Hs; rewrite Hs; cbn;
    [reflexivity | now rewrite orb_true_r | now rewrite orb_true_r].
Qed.

Lemma Range_plans_compares av al ah v lo hi :
  arg_dict self !! "value" = Some ("literal", av) ->
  arg_dict self !! "min" = Some ("literal", al) ->
  arg_dict self !! "max" = Some ("literal", ah) ->
  float av = Ok v -> float al = Ok lo -> float ah = Ok hi ->
  Range.compute (plans_scope ps) self
  = (with_result (PyBool (Float.ltb lo v && Float.ltb v hi)) self, Ok tt).
Proof.
  intros Ev El Eh Fv Fl Fh. run_method.
  rewrite (get_value_literal self _ _ None Ev), (get_value_literal self _ _ None El),
    (get_value_literal self _ _ None Eh).
  rewrite (float_not_None _ _ Fv), (float_not_None _ _ Fl),
    (float_not_None _ _ Fh), Fv, Fl. unfold gt, lt. cbn.
  destruct (Float.ltb lo v); cbn; [now rewrite Fh | reflexivity].
Qed.

End PlansKeyword.

(** X4. Threshold and Range called with the keyword [plans] and no
    district go on to resolve their arguments without a district: when all
    their arguments are literals the comparison of the literals is stored,
    and when one of them is not a literal (a subject, say) the call
    returns with the instance untouched. *)
Theorem plans_keyword_resolves_without_district `{FloatFromString}
    (self : Calculator) (ps : list Plan) :
  (forall tv av tt' at',
      arg_dict self !! "value" = Some (tv, av) ->
      arg_dict self !! "threshold" = Some (tt', at') ->
      (tv <> "literal" \/ tt' <> "literal" ->
       Threshold.compute (plans_scope ps) self = (self, Ok tt)) /\
      (forall v t,
          tv = "literal" -> tt' = "literal" ->
          float av = Ok v -> float at' = Ok t ->
          Threshold.compute (plans_scope ps) self
          = (with_result (PyBool (Float.ltb t v)) self, Ok tt))) /\
  (forall tv av tl al th ah,
      arg_dict self !! "value" = Some (tv, av) ->
      arg_dict self !! "min" = Some (tl, al) ->
      arg_dict self !! "max" = Some (th, ah) ->
      (tv <> "literal" \/ tl <> "literal" \/ th <> "literal" ->
       Range.compute (plans_scope ps) self = (self, Ok tt)) /\
      (forall v lo hi,
          tv = "literal" -> tl = "literal" -> th = "literal" ->
          float av = Ok v -> float al = Ok lo -> float ah = Ok hi ->
          Range.compute (plans_scope ps) self
          = (with_result (PyBool (Float.ltb lo v && Float.ltb v hi)) self, Ok tt))).
Proof.
  split.
  - intros tv av tt' at' Ev Et. split.
    + intros Hsub. eapply Threshold_plans_abstains; eauto.
    + intros v t -> -> Fv Ft. eapply Threshold_plans_compares; eauto.
  - intros tv av tl al th ah Ev El Eh. split.
    + intros Hsub. eapply Range_plans_abstains; eauto.
    + intros v lo hi -> -> -> Fv Fl Fh.
      eapply Range_plans_compares; eauto.
Qed.

(** ** Percent: the division and its fault *)

Section PercentDistrict.

Context `{FloatFromString}.
Variables (self : Calculator) (d : District) (num den : pyobj).
Hypothesis numerator : get_value self "numerator" (Some d) = Ok num.
Hypothesis denominator : get_value self "denominator" (Some d) = Ok den.

Lemma Percent_district_abstains :
  is_None num || is_None den = true ->
  Percent.compute (district_scope d) self = (self, Ok tt).
Proof. intros N. run_method. now rewrite numerator, denominator, N. Qed.

Lemma Percent_district_divides n m :
  float num = Ok n -> float den = Ok m ->
  Percent.compute (district_scope d) self
  = match truediv n m with
    | Ok q => (with_result (PyFloat q) self, Ok tt)
    | Raise e => (self, Raise e)
    end.
Proof.
  intros Fn Fm. run_method. rewrite numerator, denominator.
  rewrite (float_not_None _ _ Fn), (float_not_None _ _ Fm), Fn, Fm. cbn.
  now destruct (truediv n m).
Qed.

End PercentDistrict.

(** X5. On a district scope, with both arguments resolved to values that
    convert to floats, Percent stores the quotient of the numerator by the
    denominator when the denominator is not zero, and raises
    [ZeroDivisionError], leaving the instance as it was, when the
    denominator is zero (of either sign). *)
Theorem percent_district_quotient `{FloatFromString}
    (self : Calculator) (d : District) (num den : pyobj) (n m : float64) :
  get_value self "numerator" (Some d) = Ok num ->
  get_value self "denominator" (Some d) = Ok den ->
  float num = Ok n ->
  float den = Ok m ->
  Percent.compute (district_scope d) self
  = if Float.is_zero m then (self, Raise ZeroDivisionError)
    else (with_result (PyFloat (Float.div n m)) self, Ok tt).
Proof.
  intros Gn Gm Fn Fm.
  rewrite (Percent_district_divides self d num den Gn Gm n m Fn Fm).
  unfold truediv. now destruct (Float.is_zero m).
Qed.

(** 1 of 2 is one half; 1 of 0 raises. *)
Lemma percent_district_examples :
  Percent.compute (H := sample_texts) (district_scope (counted 1 2)) share
  = (with_result (PyFloat (Float.div (Float.of_Z 1) (Float.of_Z 2))) share, Ok tt)
  /\ Percent.compute (H := sample_texts) (district_scope (counted 1 0)) share
  = (share, Raise ZeroDivisionError).
Proof.
  split.
  - exact (percent_district_quotient (H := sample_texts) share (counted 1 2)
             (PyInt 1) (PyInt 2) _ _ eq_refl eq_refl eq_refl eq_refl).
  - exact (percent_district_quotient (H := sample_texts) share (counted 1 0)
             (PyInt 1) (PyInt 0) _ _ eq_refl eq_refl eq_refl eq_refl).
Defined.

(** X6. On a plan scope Percent raises [ZeroDivisionError], leaving the
    instance as it was, whenever the total of the denominators is zero: in
    particular when no district of the plan contributes (each has the
    numerator or the denominator unresolved) and, whatever the argument
    mapping, when the plan has no district at all. *)
Theorem percent_plan_without_denominator_raises `{FloatFromString}
    (self : Calculator) (p : Plan) :
  (forall numbers,
      is_Some (arg_dict self !! "numerator") ->
      is_Some (arg_dict self !! "denominator") ->
      converted (contributions self (get_districts_at_version p (version p))) numbers ->
      Float.is_zero (total (snd <$> numbers)) = true ->
      Percent.compute (plan_scope p) self = (self, Raise ZeroDivisionError)) /\
  (is_Some (arg_dict self !! "numerator") ->
   is_Some (arg_dict self !! "denominator") ->
   contributions self (get_districts_at_version p (version p)) = [] ->
   Percent.compute (plan_scope p) self = (self, Raise ZeroDivisionError)) /\
  (get_districts_at_version p (version p) = [] ->
   Percent.compute (plan_scope p) self = (self, Raise ZeroDivisionError)).
Proof.
  assert (Hzero : forall numbers,
      is_Some (arg_dict self !! "numerator") ->
      is_Some (arg_dict self !! "denominator") ->
      converted (contributions self (get_districts_at_version p (version p))) numbers ->
      Float.is_zero (total (snd <$> numbers)) = true ->
      Percent.compute (plan_scope p) self = (self, Raise ZeroDivisionError)).
  { intros numbers Hn Hd Hconv Hz.
    rewrite (compute_plan_totals self Hn Hd p numbers Hconv).
    unfold truediv. now rewrite Hz. }
  split; [exact Hzero|]. split.
  - intros Hn Hd Hnone. apply (Hzero [] Hn Hd); [|reflexivity].
    rewrite Hnone. constructor.
  - intros Hempty. unfold Percent.compute.
    cbn [plan_scope kw_district kw_plan]. now rewrite Hempty.
Qed.

(** A float added to the zero a total starts from is itself, unless it is
    the negative zero. *)
Lemma add_zero_l (x : float64) :
  x <> S754_zero true -> Float.add Float.zero x = x.
Proof. destruct x as [[]|[]| |s m e]; intros Hx; try reflexivity. congruence. Qed.

Lemma add_zero_is_zero (x : float64) :
  Float.is_zero (Float.add Float.zero x) = Float.is_zero x.
Proof. now destruct x as [[]|[]| |s m e]. Qed.

(** X7. A plan of one district scores as the district does when both
    values resolve and convert (the numerator not being the negative
    zero); when one of the two is unresolved the two scopes part: the
    district scope returns without a result, the plan scope raises
    [ZeroDivisionError]. *)
Theorem percent_plan_of_one_district `{FloatFromString}
    (self : Calculator) (p : Plan) (d : District) (num den : pyobj) :
  get_districts_at_version p (version p) = [d] ->
  get_value self "numerator" (Some d) = Ok num ->
  get_value self "denominator" (Some d) = Ok den ->
  (forall n m,
      float num = Ok n -> float den = Ok m -> n <> S754_zero true ->
      Percent.compute (plan_scope p) self = Percent.compute (district_scope d) self) /\
  (is_None num || is_None den = true ->
   Percent.compute (district_scope d) self = (self, Ok tt) /\
   Percent.compute (plan_scope p) self = (self, Raise ZeroDivisionError)).
Proof.
  intros Hp Gn Gm.
  assert (Hn : is_Some (arg_dict self !! "numerator")).
  { destruct (arg_dict self !! "numerator") eqn:E; [eauto|].
    rewrite (get_value_unconfigured self _ _ E) in Gn. discriminate. }
  assert (Hd : is_Some (arg_dict self !! "denominator")).
  { destruct (arg_dict self !! "denominator") eqn:E; [eauto|].
    rewrite (get_value_unconfigured self _ _ E) in Gm. discriminate. }
  split.
  - intros n m Fn Fm Hneg.
    rewrite (Percent_district_divides self d num den Gn Gm n m Fn Fm).
    rewrite (compute_plan_totals self Hn Hd p [(n, m)]).
    + cbn [fmap list_fmap fst snd total fold_left].
      rewrite (add_zero_l n Hneg). unfold truediv.
      rewrite add_zero_is_zero.
      destruct m as [[]|[]| |s mm e]; reflexivity.
    + rewrite Hp. unfold contributions, contribution. cbn [omap list_omap].
      rewrite Gn, Gm, (float_not_None _ _ Fn), (float_not_None _ _ Fm).
      cbn. repeat constructor; assumption.
  - intros N. split.
    + now apply Percent_district_abstains with num den.
    + rewrite (compute_plan_totals self Hn Hd p []); [reflexivity|].
      rewrite Hp. unfold contributions, contribution. cbn [omap list_omap].
      rewrite Gn, Gm, N. constructor.
Qed.

(** One district with both counts, and one whose voters were not
    counted. *)
Lemma percent_plan_of_one_examples :
  Percent.compute (H := sample_texts) (plan_scope (plan_of [counted 1 2])) share
  = Percent.compute (H := sample_texts) (district_scope (counted 1 2)) share
  /\ Percent.compute (H := sample_texts) (district_scope uncounted) share
     = (share, Ok tt)
  /\ Percent.compute (H := sample_texts) (plan_scope (plan_of [uncounted])) share
     = (share, Raise ZeroDivisionError).
Proof.
  destruct (percent_plan_of_one_district (H := sample_texts) share
              (plan_of [counted 1 2]) (counted 1 2) (PyInt 1) (PyInt 2)
              eq_refl eq_refl eq_refl) as [same _].
  destruct (percent_plan_of_one_district (H := sample_texts) share
              (plan_of [uncounted]) uncounted (PyInt 9) PyNone
              eq_refl eq_refl eq_refl) as [_ part].
  split.
  - apply (same (Float.of_Z 1) (Float.of_Z 2)); [reflexivity | reflexivity |].
    discriminate.
  - apply part. reflexivity.
Defined.

(** ** Schwartzberg: a geometry without perimeter *)

(** X8. Schwartzberg on a district whose geometry has a perimeter of zero
    (and an area that is not negative) raises [ZeroDivisionError] and
    leaves the instance as it was: only an absent geometry is guarded. *)
Theorem schwartzberg_zero_perimeter_raises
    (self : Calculator) (d : District) (g : GEOSGeometry.t) :
  geom d = Some g ->
  Float.ltb (GEOSGeometry.area g) Float.zero = false ->
  Float.is_zero (GEOSGeometry.length g) = true ->
  Schwartzberg.compute (district_scope d) self = (self, Raise ZeroDivisionError).
Proof.
  intros Hg Harea Hlength. run_method. rewrite Hg.
  unfold truediv at 1. cbn [Float.is_zero Float.pi].
  rewrite (sqrt_defined _ Harea). unfold truediv. now rewrite Hlength.
Qed.

(** A point: no area, no perimeter. *)
Lemma schwartzberg_of_a_point_raises :
  Schwartzberg.compute (district_scope empty_shape) (configured [])
  = (configured [], Raise ZeroDivisionError).
Proof.
  exact (schwartzberg_zero_perimeter_raises (configured []) empty_shape
           (GEOSGeometry.mk Float.zero Float.zero) eq_refl eq_refl eq_refl).
Defined.

(** ** Range: bounds that leave no room *)

Lemma ltb_transitive (x y z : float64) :
  Float.ltb x y = true -> Float.ltb y z = true -> Float.ltb x z = true.
Proof.
  unfold Float.ltb, SFltb, SFcompare.
  destruct x as [sx|sx| |sx mx ex], y as [sy|sy| |sy my ey], z as [sz|sz| |sz mz ez];
    try discriminate; try reflexivity;
    try (destruct sx, sy, sz; (discriminate || reflexivity)).
  repeat match goal with
  | |- context [Pos.compare_cont Eq ?a ?b] =>
      change (Pos.compare_cont Eq a b) with (Pos.compare a b)
  end.
  destruct sx, sy, sz; try discriminate; try reflexivity;
    destruct (Z.compare_spec ex ey), (Z.compare_spec ey ez), (Z.compare_spec ex ez);
    try discriminate; try reflexivity; try lia;
    destruct (Pos.compare_spec mx my), (Pos.compare_spec my mz), (Pos.compare_spec mx mz);
    cbn; try discriminate; try reflexivity; try lia.
Qed.

(** X9. Range stores false for every value when its bounds leave no room
    (the minimum is not below the maximum, or a bound is not a number), and
    when the value itself is not a number; and whenever Range stores true,
    Threshold with the same value and the minimum as its threshold stores
    true as well. *)
Theorem range_without_room_is_false `{FloatFromString}
    (self : Calculator) (d : District) (val minval maxval : pyobj)
    (v lo hi : float64) :
  get_value self "value" (Some d) = Ok val ->
  get_value self "min" (Some d) = Ok minval ->
  get_value self "max" (Some d) = Ok maxval ->
  float val = Ok v -> float minval = Ok lo -> float maxval = Ok hi ->
  (Float.ltb lo hi = false \/ Float.is_nan v = true ->
   Range.compute (district_scope d) self = (with_result (PyBool false) self, Ok tt)) /\
  (Range.compute (district_scope d) self = (with_result (PyBool true) self, Ok tt) ->
   Float.ltb lo hi = true /\
   forall other thr,
     get_value other "value" (Some d) = Ok val ->
     get_value other "threshold" (Some d) = Ok thr ->
     float thr = Ok lo ->
     Threshold.compute (district_scope d) other
     = (with_result (PyBool true) other, Ok tt)).
Proof.
  intros Gv Gl Gh Fv Fl Fh.
  rewrite (Range_compares self d val minval maxval v lo hi Gv Gl Gh Fv Fl Fh).
  split.
  - intros [Hroom|Hnan].
    + destruct (Float.ltb lo v) eqn:L1, (Float.ltb v hi) eqn:L2; try reflexivity.
      now rewrite (ltb_transitive lo v hi L1 L2) in Hroom.
    + destruct v; try discriminate. now destruct lo.
  - intros Hrange.
    assert (Float.ltb lo v && Float.ltb v hi = true) as [L1 L2]%andb_prop
      by (unfold with_result in Hrange; congruence).
    split; [now apply ltb_transitive with v|].
    intros other thr Gv' Gt Ft.
    rewrite (Threshold_compares other d val thr v lo Gv' Gt Fv Ft).
    now rewrite L1.
Qed.

(** Between 10 and 1 there is no room for 5. *)
Lemma range_without_room_example :
  Range.compute (H := sample_texts) (district_scope seven_people) no_room
  = (with_result (PyBool false) no_room, Ok tt).
Proof.
  apply (proj1 (range_without_room_is_false (H := sample_texts)
                  no_room seven_people (PyInt 5) (PyInt 10) (PyInt 1)
                  (Float.of_Z 5) (Float.of_Z 10) (Float.of_Z 1)
                  eq_refl eq_refl eq_refl eq_refl eq_refl eq_refl)).
  left. reflexivity.
Defined.

(** ** Sum: the value of the sum *)

Section SumValue.

Context `{FloatFromString}.

Lemma with_own_result self : with_result (result self) self = self.
Proof. now destruct self. Qed.

Lemma resolved_values_agree s1 s2 d argnums :
  arg_dict s1 = arg_dict s2 ->
  resolved_values s1 d argnums = resolved_values s2 d argnums.
Proof.
  intros E. unfold resolved_values.
  induction argnums as [|i rest IH]; [reflexivity|]. cbn [omap list_omap].
  rewrite (get_value_agree s1 s2 _ _ (f_equal (fun m => m !! Sum.value_key i) E)).
  now rewrite IH.
Qed.

Lemma accumulated_app acc a xs ys :
  accumulated (accumulated acc a xs) (fold_left Float.add xs a) ys
  = accumulated acc a (xs ++ ys).
Proof.
  destruct xs as [|x xs]; [reflexivity|].
  destruct ys as [|y ys].
  - now rewrite app_nil_r.
  - change (accumulated acc a ((x :: xs) ++ y :: ys))
      with (PyFloat (fold_left Float.add ((x :: xs) ++ y :: ys) a)).
    now rewrite fold_left_app.
Qed.

Lemma stands_for_accumulated acc a xs :
  stands_for acc a ->
  stands_for (accumulated acc a xs) (fold_left Float.add xs a).
Proof. intros Hacc. destruct xs; [assumption|]. split; reflexivity. Qed.

(** The enumeration on one district adds the floats of the values that
    resolve, in order. *)
Lemma add_values_accumulates d argnums : forall self a xs,
  (forall i, i ∈ argnums -> is_Some (arg_dict self !! Sum.value_key i)) ->
  stands_for (result self) a ->
  Forall2 (fun v x => float v = Ok x) (resolved_values self d argnums) xs ->
  add_values d argnums self
  = (with_result (accumulated (result self) a xs) self, Ok tt).
Proof.
  induction argnums as [|i rest IH]; intros self a xs Hconf Hacc Hconv.
  - apply Forall2_nil_inv_l in Hconv as ->. cbn. now rewrite with_own_result.
  - destruct (Hconf i ltac:(listed)) as [entry E].
    destruct (get_value_configured self _ _ (Some d) E) as [v G].
    unfold resolved_values in Hconv. cbn [omap list_omap] in Hconv.
    rewrite G in Hconv.
    cbn [add_values]. unfold bind at 1.
    unfold Sum.add_value, bind, read, lift, ret. rewrite G.
    destruct (is_None v) eqn:N.
    + apply IH; auto. intros j Hj. apply Hconf. now apply list_elem_of_further.
    + apply Forall2_cons_inv_l in Hconv as (x & xs' & Fx & Hconv & ->).
      rewrite Fx. destruct Hacc as [_ Hadd]. rewrite Hadd. cbn [set_result].
      rewrite (IH _ (Float.add a x) xs').
      * cbn [result arg_dict with_result]. unfold with_result. cbn [arg_dict].
        do 2 f_equal. destruct xs'; reflexivity.
      * intros j Hj. cbn [arg_dict]. apply Hconf. now apply list_elem_of_further.
      * apply float_stands_for.
      * now rewrite (resolved_values_agree _ self).
Qed.

Lemma add_districts_accumulates districts argnums : forall self a xs,
  (forall i, i ∈ argnums -> is_Some (arg_dict self !! Sum.value_key i)) ->
  stands_for (result self) a ->
  Forall2 (fun v x => float v = Ok x)
    (concat (List.map (fun d => resolved_values self d argnums) districts)) xs ->
  add_districts districts argnums self
  = (with_result (accumulated (result self) a xs) self, Ok tt).
Proof.
  induction districts as [|d rest IH]; intros self a xs Hconf Hacc Hconv.
  - apply Forall2_nil_inv_l in Hconv as ->. cbn. now rewrite with_own_result.
  - cbn [List.map concat] in Hconv.
    apply Forall2_app_inv_l in Hconv as (xs1 & xs2 & Hconv1 & Hconv2 & ->).
    cbn [add_districts]. unfold bind.
    rewrite (add_values_accumulates d argnums self a xs1 Hconf Hacc Hconv1).
    rewrite (IH _ (fold_left Float.add xs1 a) xs2).
    + unfold with_result. cbn [result arg_dict].
      now rewrite accumulated_app.
    + exact Hconf.
    + now apply stands_for_accumulated.
    + erewrite List.map_ext; [exact Hconv2|].
      intros d'. now apply resolved_values_agree.
Qed.

End SumValue.

(** X10. With a district or a plan scope, Sum returns with the float sum
    of the configured values [value1..valueK] that resolve, taken district
    by district and added in that order from zero, values that resolve to
    [None] being passed over; when none resolves the result is the integer
    0. A literal value is thus counted once for every district of a
    plan. *)
Theorem sum_adds_resolved_values `{FloatFromString}
    (kw : kwargs) (self : Calculator) (districts : list District) (K : nat)
    (xs : list float64) :
  districts_of kw = Some districts ->
  contiguous (arg_dict self) K ->
  arg_dict self !! Sum.value_key (S K) = None ->
  Forall2 (fun v x => float v = Ok x)
    (concat (List.map (fun d => resolved_values self d (seq 1 K)) districts)) xs ->
  Sum.compute kw self
  = Some (with_result (accumulated (PyInt 0) Float.zero xs) self, Ok tt).
Proof.
  intros Hkw Hall Hgap Hconv.
  rewrite (compute_enumerates kw self districts K Hkw Hall Hgap).
  rewrite (add_districts_accumulates districts (seq 1 K)
             (with_result (PyInt 0) self) Float.zero xs).
  - reflexivity.
  - intros i Hi. apply elem_of_seq in Hi. apply Hall. lia.
  - apply zero_stands_for_zero.
  - erewrite List.map_ext; [exact Hconv|].
    intros d. now apply resolved_values_agree.
Qed.

(** The literal one half and the votes of two districts, the second of
    which has none counted: one half, one vote and one half again. *)
Lemma sum_over_a_plan_example :
  Sum.compute (H := sample_texts)
    (plan_scope (plan_of [counted 1 2; measured []])) half_and_votes
  = Some (with_result (PyFloat (Float.of_Z 2)) half_and_votes, Ok tt).
Proof.
  assert (Hall : contiguous (arg_dict half_and_votes) 2).
  { intros i Hi.
    assert (i = 1 \/ i = 2) as [-> | ->] by lia; vm_compute; eauto. }
  exact (sum_adds_resolved_values (H := sample_texts)
           (plan_scope (plan_of [counted 1 2; measured []])) half_and_votes
           [counted 1 2; measured []] 2
           [Float.div Float.one (Float.of_Z 2); Float.of_Z 1;
            Float.div Float.one (Float.of_Z 2)]
           eq_refl Hall eq_refl
           ltac:(repeat constructor)).
Defined.

(** ** The renderers *)

Lemma percent_sign_is_not_na (text : string) : text +:+ "%" <> "n/a".
Proof.
  destruct text as [|a [|b [|c [|c' rest]]]]; cbn; discriminate.
Qed.

(** X11. The Schwartzberg renderer answers "n/a" exactly when the result
    is false as a truth value: unset, but also a score of zero. So a
    district whose geometry has no area and some perimeter is scored 0.0
    by [compute] and shown as "n/a"; a score that is not zero is shown as
    the percentage of a hundred times the score. *)
Theorem schwartzberg_html_hides_zero `{Texts} :
  (forall self,
      Schwartzberg.html self = Ok "n/a" <-> truthy (result self) = false) /\
  (forall self d g,
      geom d = Some g ->
      Float.is_zero (GEOSGeometry.area g) = true ->
      Float.is_zero (GEOSGeometry.length g) = false ->
      Float.is_nan (GEOSGeometry.length g) = false ->
      (exists s,
          Schwartzberg.compute (district_scope d) self
          = (with_result (PyFloat (S754_zero s)) self, Ok tt)) /\
      Schwartzberg.html (fst (Schwartzberg.compute (district_scope d) self))
      = Ok "n/a") /\
  (forall self f,
      result self = PyFloat f ->
      Float.is_zero f = false ->
      Schwartzberg.html self
      = Ok (float_2f (Float.mul f (Float.of_Z 100)) +:+ "%")).
Proof.
  split; [|split].
  - intros self. unfold Schwartzberg.html. split.
    + destruct (truthy (result self)); [|reflexivity].
      destruct (mul_int _ _) as [scaled|]; [|discriminate].
      destruct (format_2f scaled) as [text|]; [|discriminate].
      intros E. injection E as E. now apply percent_sign_is_not_na in E.
    + now intros ->.
  - intros self d g Hg Harea Hlength Hnan.
    assert (exists s,
      Schwartzberg.compute (district_scope d) self
      = (with_result (PyFloat (S754_zero s)) self, Ok tt)) as [s E].
    { run_method. rewrite Hg. destruct g as [area length]. cbn in *.
      destruct area as [sa| | |]; try discriminate.
      destruct length as [|sl| |sl ml el]; try discriminate;
        destruct sa; eexists; reflexivity. }
    split; [now exists s|]. rewrite E. reflexivity.
  - intros self f Hr Hz. unfold Schwartzberg.html. rewrite Hr. cbn [truthy].
    now rewrite Hz.
Qed.

Section Shown.

Context `{FloatFromString} `{Texts}.

Lemma Threshold_stores_a_boolean kw self :
  result (fst (Threshold.compute kw self)) = result self \/
  exists b, result (fst (Threshold.compute kw self)) = PyBool b.
Proof.
  unfold Threshold.compute, bind, read, lift, ret, set_result.
  destruct (kw_district kw), (kw_plans kw); try (now left);
    (destruct (get_value self "value" _) as [val|]; [|now left];
     destruct (get_value self "threshold" _) as [thr|]; [|now left];
     destruct (is_None val || is_None thr); [now left|];
     destruct (float val); [|now left];
     destruct (float thr); [|now left];
     right; eexists; reflexivity).
Qed.

Lemma Range_stores_a_boolean kw self :
  result (fst (Range.compute kw self)) = result self \/
  exists b, result (fst (Range.compute kw self)) = PyBool b.
Proof.
  unfold Range.compute, bind, read, lift, ret, set_result.
  destruct (kw_district kw), (kw_plans kw); try (now left);
    (destruct (get_value self "value" _) as [val|]; [|now left];
     destruct (get_value self "min" _) as [lo|]; [|now left];
     destruct (get_value self "max" _) as [hi|]; [|now left];
     destruct (is_None val || is_None lo || is_None hi); [now left|];
     destruct (float val) as [fv|]; [|now left];
     destruct (float lo) as [flo|]; [|now left];
     destruct (gt fv flo); [|right; eexists; reflexivity];
     destruct (float hi); [|now left];
     right; eexists; reflexivity).
Qed.

Lemma unset_or_boolean_shows self :
  result self = PyNone \/ (exists b, result self = PyBool b) -> shows self.
Proof.
  unfold shows, CalculatorBase.html, CalculatorBase.json.
  intros [E|[b E]]; rewrite E; [left | right; exists b]; now destruct_and?.
Qed.

End Shown.

(** X12. After Threshold or Range has computed on a fresh instance,
    whatever the scope and the argument mapping and however the call
    ended, the generic renderers show either nothing (the span "n/a" and
    the JSON null, when the result is unset) or a boolean (the span "True"
    or "False", the JSON true or false); an unset result and a stored
    False are never rendered alike. *)
Theorem renderers_tell_unset_from_false `{FloatFromString} `{Texts}
    (kw : kwargs) (args : gmap string (string * pyobj)) :
  shows (fst (Threshold.compute kw {| result := PyNone; arg_dict := args |})) /\
  shows (fst (Range.compute kw {| result := PyNone; arg_dict := args |})) /\
  (forall unset stored b,
      result unset = PyNone -> result stored = PyBool b ->
      CalculatorBase.html unset <> CalculatorBase.html stored /\
      CalculatorBase.json unset <> CalculatorBase.json stored).
Proof.
  split; [|split].
  - apply unset_or_boolean_shows.
    destruct (Threshold_stores_a_boolean kw {| result := PyNone; arg_dict := args |})
      as [E|E]; [left; now rewrite E | now right].
  - apply unset_or_boolean_shows.
    destruct (Range_stores_a_boolean kw {| result := PyNone; arg_dict := args |})
      as [E|E]; [left; now rewrite E | now right].
  - intros unset stored b Eu Es.
    unfold CalculatorBase.html, CalculatorBase.json. rewrite Eu, Es.
    destruct b; split; discriminate.
Qed.

(** X13. A sum for which no data resolved is rendered as the number 0, in
    the span and in the JSON text, not as "n/a" or null: once the scope is
    a district or a plan and every configured value is unresolved on every
    district, the generic renderers show 0. *)
Theorem sum_without_data_renders_zero `{FloatFromString} `{Texts}
    (kw : kwargs) (self : Calculator) (districts : list District) :
  districts_of kw = Some districts ->
  (forall d i, d ∈ districts ->
     is_Some (arg_dict self !! Sum.value_key i) ->
     get_value self (Sum.value_key i) (Some d) = Ok PyNone) ->
  exists after,
    Sum.compute kw self = Some (after, Ok tt) /\
    CalculatorBase.html after = "<span>0</span>" /\
    CalculatorBase.json after
    = "{" +:+ quote +:+ "result" +:+ quote +:+ ": 0}".
Proof.
  intros Hkw Hu. exists (with_result (PyInt 0) self).
  split; [now apply Sum_unresolved_is_zero with districts|].
  split; reflexivity.
Qed.

(** The sum of two subjects that the district has no measurement of. *)
Lemma sum_without_data_example :
  exists after,
    Sum.compute (H := sample_texts) (district_scope seven_people) sum_of_subjects
    = Some (after, Ok tt) /\
    CalculatorBase.html (H := no_float_texts) after
    = "<span>0</span>" /\
    CalculatorBase.json (H := no_float_texts) after
    = "{" +:+ quote +:+ "result" +:+ quote +:+ ": 0}".
Proof.
  apply (sum_without_data_renders_zero (H := sample_texts)
           (district_scope seven_people) sum_of_subjects [seven_people] eq_refl).
  intros d i Hd Hi. apply list_elem_of_singleton in Hd as ->.
  destruct Hi as [entry Hentry].
  destruct (decide (i = 1)) as [->|]; [reflexivity|].
  destruct (decide (i = 2)) as [->|]; [reflexivity|].
  exfalso.
  assert (Hkeys : forall key, is_Some (arg_dict sum_of_subjects !! key) ->
                              key = "value1" \/ key = "value2").
  { intros key [e He]. unfold sum_of_subjects, configured in He. cbn in He.
    apply lookup_insert_Some in He as [[<- _]|[_ He]]; [now left|].
    apply lookup_insert_Some in He as [[<- _]|[_ He]]; [now right|].
    now rewrite lookup_empty in He. }
  destruct (Hkeys _ (ex_intro _ entry Hentry)) as [E|E];
    [apply (value_key_inj i 1) in E | apply (value_key_inj i 2) in E]; lia.
Defined.

(** * The two keywords of Threshold and Range, and the zero of Sum *)

(** C2, as amended. Threshold and Range invoked with the keyword [plan],
    as Sum and Percent read a plan, do nothing: the call returns with the
    instance as it was. Invoked with the keyword [plans], which their own
    scope test names, they go on to resolve their arguments without a
    district: the instance is left as it was when a configured argument is
    not a literal, and when all arguments are literals that convert to
    numbers the comparison of the literals is stored, false included. *)
Theorem threshold_and_range_plan_keywords `{FloatFromString}
    (self : Calculator) (p : Plan) (ps : list Plan) :
  Threshold.compute (plan_scope p) self = (self, Ok tt) /\
  Range.compute (plan_scope p) self = (self, Ok tt) /\
  (forall tv av tt' at',
      arg_dict self !! "value" = Some (tv, av) ->
      arg_dict self !! "threshold" = Some (tt', at') ->
      (tv <> "literal" \/ tt' <> "literal" ->
       Threshold.compute (plans_scope ps) self = (self, Ok tt)) /\
      (forall v t,
          tv = "literal" -> tt' = "literal" ->
          float av = Ok v -> float at' = Ok t ->
          Threshold.compute (plans_scope ps) self
          = (with_result (PyBool (Float.ltb t v)) self, Ok tt))) /\
  (forall tv av tl al th ah,
      arg_dict self !! "value" = Some (tv, av) ->
      arg_dict self !! "min" = Some (tl, al) ->
      arg_dict self !! "max" = Some (th, ah) ->
      (tv <> "literal" \/ tl <> "literal" \/ th <> "literal" ->
       Range.compute (plans_scope ps) self = (self, Ok tt)) /\
      (forall v lo hi,
          tv = "literal" -> tl = "literal" -> th = "literal" ->
          float av = Ok v -> float al = Ok lo -> float ah = Ok hi ->
          Range.compute (plans_scope ps) self
          = (with_result (PyBool (Float.ltb lo v && Float.ltb v hi)) self, Ok tt))).
Proof.
  split; [reflexivity|]. split; [reflexivity|]. split.
  - intros tv av tt' at' Ev Et. split.
    + intros Hsub. eapply Threshold_plans_abstains; eauto.
    + intros v t -> -> Fv Ft. eapply Threshold_plans_compares; eauto.
  - intros tv av tl al th ah Ev El Eh. split.
    + intros Hsub. eapply Range_plans_abstains; eauto.
    + intros v lo hi -> -> -> Fv Fl Fh. eapply Range_plans_compares; eauto.
Qed.

(** With either keyword a threshold on the population, a subject, leaves
    the instance as it was. *)
Lemma plan_keywords_example :
  Threshold.compute (H := sample_texts) (plan_scope (plan_of [seven_people]))
    population_against_five
  = (population_against_five, Ok tt)
  /\ Threshold.compute (H := sample_texts) (plans_scope [plan_of [seven_people]])
       population_against_five
     = (population_against_five, Ok tt).
Proof.
  destruct (threshold_and_range_plan_keywords (H := sample_texts)
              population_against_five (plan_of [seven_people])
              [plan_of [seven_people]]) as (unread & _ & without_district & _).
  split; [exact unread|].
  destruct (without_district "subject" (PyStr "population") "literal" (PyInt 5)
              eq_refl eq_refl) as [abstains _].
  apply abstains. left. discriminate.
Defined.

(** With the keyword [plans] and literal arguments a boolean is stored:
    false for 5 against the threshold 5, true for 5 between 1 and 10. *)
Lemma plans_keyword_stores_a_boolean :
  Threshold.compute (H := sample_texts) (plans_scope [plan_of [seven_people]])
    five_against_five
  = (with_result (PyBool false) five_against_five, Ok tt)
  /\ Range.compute (H := sample_texts) (plans_scope [plan_of [seven_people]])
       five_in_range
     = (with_result (PyBool true) five_in_range, Ok tt).
Proof. split; reflexivity. Qed.

(** The sum over a scope's districts, as the enumeration accumulates it. *)
Lemma Sum_accumulates `{FloatFromString}
    (kw : kwargs) (self : Calculator) (districts : list District) (K : nat)
    (xs : list float64) :
  districts_of kw = Some districts ->
  contiguous (arg_dict self) K ->
  arg_dict self !! Sum.value_key (S K) = None ->
  Forall2 (fun v x => float v = Ok x)
    (concat (List.map (fun d => resolved_values self d (seq 1 K)) districts)) xs ->
  Sum.compute kw self
  = Some (with_result (accumulated (PyInt 0) Float.zero xs) self, Ok tt).
Proof.
  intros Hkw Hall Hgap Hconv.
  rewrite (compute_enumerates kw self districts K Hkw Hall Hgap).
  rewrite (add_districts_accumulates districts (seq 1 K)
             (with_result (PyInt 0) self) Float.zero xs).
  - reflexivity.
  - intros i Hi. apply elem_of_seq in Hi. apply Hall. lia.
  - apply zero_stands_for_zero.
  - erewrite List.map_ext; [exact Hconv|].
    intros d. now apply resolved_values_agree.
Qed.

(** C9, as amended. Once its scope is recognised (a district or a plan),
    Sum stores 0 in the result slot before it accumulates, so the call ends
    with the result set, whether it returns or raises. With an empty
    argument mapping, or with every configured value unresolved on every
    district, it returns with the integer 0, which as a number is the float
    zero; as soon as one value resolved it returns with a float, the sum of
    the resolved values, and a float is never the integer 0: a computed
    zero is the float 0.0, not the 0 of the case without data. *)
Theorem sum_sets_zero_or_a_float `{FloatFromString}
    (kw : kwargs) (self : Calculator) (districts : list District) :
  districts_of kw = Some districts ->
  (exists s o,
      Sum.compute kw self = Some (s, o) /\
      result s <> PyNone /\
      zero_or_float (result s)) /\
  (arg_dict self = ∅ ->
   Sum.compute kw self = Some (with_result (PyInt 0) self, Ok tt)) /\
  ((forall d i, d ∈ districts ->
      is_Some (arg_dict self !! Sum.value_key i) ->
      get_value self (Sum.value_key i) (Some d) = Ok PyNone) ->
   Sum.compute kw self = Some (with_result (PyInt 0) self, Ok tt)) /\
  float (PyInt 0) = Ok Float.zero /\
  (forall K xs,
      contiguous (arg_dict self) K ->
      arg_dict self !! Sum.value_key (S K) = None ->
      Forall2 (fun v x => float v = Ok x)
        (concat (List.map (fun d => resolved_values self d (seq 1 K)) districts)) xs ->
      xs <> [] ->
      Sum.compute kw self = Some (with_result (PyFloat (total xs)) self, Ok tt) /\
      PyFloat (total xs) <> PyInt 0).
Proof.
  intros Hkw. split; [|split; [|split; [|split]]].
  - now apply Sum_result_is_set with districts.
  - intros Hempty. apply Sum_unresolved_is_zero with districts; [assumption|].
    intros d i _ [entry Hentry].
    rewrite Hempty in Hentry. now rewrite lookup_empty in Hentry.
  - now apply Sum_unresolved_is_zero.
  - reflexivity.
  - intros K xs Hall Hgap Hconv Hxs. split; [|discriminate].
    rewrite (Sum_accumulates kw self districts K xs Hkw Hall Hgap Hconv).
    destruct xs; [congruence | reflexivity].
Qed.

(** The sum of a literal zero is a float: the float zero. *)
Lemma sum_of_zero_is_a_float :
  Sum.compute (H := sample_texts) (district_scope seven_people) sum_of_zero
  = Some (with_result (PyFloat (total [Float.zero])) sum_of_zero, Ok tt)
  /\ PyFloat (total [Float.zero]) <> PyInt 0.
Proof.
  destruct (sum_sets_zero_or_a_float (H := sample_texts)
              (district_scope seven_people) sum_of_zero [seven_people] eq_refl)
    as (_ & _ & _ & _ & adds).
  apply (adds 1 [Float.zero]).
  - intros i Hi. assert (i = 1) as -> by lia. vm_compute. eauto.
  - reflexivity.
  - repeat constructor.
  - discriminate.
Defined.

(** A computed zero can be told from the zero of the case without data:
    the sum of a literal zero is the float 0.0 and is shown as 0.0, the sum
    of subjects that the district does not measure is the integer 0 and is
    shown as 0. *)
Lemma computed_zero_is_not_the_zero_without_data :
  Sum.compute (H := sample_texts) (district_scope seven_people) sum_of_zero
  = Some (with_result (PyFloat Float.zero) sum_of_zero, Ok tt)
  /\ Sum.compute (H := sample_texts) (district_scope seven_people) sum_of_subjects
     = Some (with_result (PyInt 0) sum_of_subjects, Ok tt)
  /\ PyFloat Float.zero <> PyInt 0
  /\ CalculatorBase.html (H := zero_texts) (with_result (PyFloat Float.zero) sum_of_zero)
     = "<span>0.0</span>"
  /\ CalculatorBase.html (H := zero_texts) (with_result (PyInt 0) sum_of_subjects)
     = "<span>0</span>"
  /\ CalculatorBase.json (H := zero_texts) (with_result (PyFloat Float.zero) sum_of_zero)
     <> CalculatorBase.json (H := zero_texts) (with_result (PyInt 0) sum_of_subjects).
Proof.
  split; [reflexivity|]. split; [reflexivity|]. split; [discriminate|].
  split; [reflexivity|]. split; [reflexivity|]. discriminate.
Qed.
